(** * Economic-indicator scraper: a shallow embedding of [scrapers/app.py]

    The development follows the source file top to bottom: the Python
    built-ins the code relies on, the decoded provider payloads, the two
    adapters [fetch_bls_data] and [fetch_fred_data], the store with
    [load_data] / [save_data], the orchestrator [update_all_indicators]
    and the on-demand trigger [manual_update].  The theorems come after
    the definitions. *)

From Stdlib Require Import ZArith String Ascii List Lia.
From Stdlib Require Import DecimalString.
From Corelib Require Import PrimFloat SpecFloat FloatOps.
From stdpp Require Import gmap strings list.

Set Default Proof Using "Type".
Local Open Scope string_scope.
Local Open Scope Z_scope.

(** ** Exceptions and fallible computations

    Every exception the modelled code can meet is a subclass of Python's
    [Exception]; the [except Exception] handlers of the source do not tell
    them apart. *)

Inductive exn : Type :=
| Timeout            (* requests: no answer within [timeout=30] *)
| ConnectionError    (* requests: the provider cannot be reached *)
| JSONDecodeError    (* [response.json()] / [json.load]: not a JSON document *)
| IndexError         (* [xs[0]] on an empty list *)
| KeyError           (* [d[k]] on a missing key *)
| ValueError         (* [float(s)] / [int(s)] on a string that does not parse *)
| ZeroDivisionError  (* float division by zero *)
| OSError.           (* the file system refuses an operation *)

Inductive result (A : Type) : Type :=
| Ok (a : A)
| Raise (e : exn).
Arguments Ok {A} a.
Arguments Raise {A} e.

Definition ret {A} (a : A) : result A := Ok a.

Definition bind {A B} (m : result A) (k : A -> result B) : result B :=
  match m with
  | Ok a => k a
  | Raise e => Raise e
  end.

Notation "'let*' x ':=' m 'in' k" := (bind m (fun x => k))
  (at level 10, x name, m at level 100, k at level 200).

(** [[p(d) for d in xs]] used as a filter whose condition may raise: the
    condition is evaluated on the elements from left to right and the
    first exception ends the comprehension. *)
Fixpoint filterM {A} (p : A -> result bool) (xs : list A) : result (list A) :=
  match xs with
  | [] => ret []
  | x :: rest =>
      let* b := p x in
      let* keep := filterM p rest in
      ret (if b then x :: keep else keep)
  end.

(** [xs[0]] *)
Definition first {A} (xs : list A) : result A :=
  match xs with
  | x :: _ => Ok x
  | [] => Raise IndexError
  end.

(** ** Python built-ins on strings and floats

    A Python [str] is a sequence of code points; it is represented here
    by its UTF-8 encoding, the way the source file and the JSON documents
    hold it.  Equality, concatenation and the removal of an ASCII
    character are the same on both sides; length, slicing and padding
    count code points, that is, the bytes that do not continue a code
    point begun before them.  A [str] with a lone surrogate has no such
    encoding and is not represented. *)

Module Py.

(** The bytes [10xxxxxx], which continue a code point. *)
Definition continuation (c : ascii) : bool :=
  match c with
  | Ascii _ _ _ _ _ _ b6 b7 => (b7 && negb b6)%bool
  end.

(** [len(s)]: the number of code points. *)
Fixpoint len (s : string) : nat :=
  match s with
  | EmptyString => O
  | String c rest => if continuation c then len rest else S (len rest)
  end.

(** [str(n)] for an [int] *)
Definition str (n : Z) : string := NilZero.string_of_int (Z.to_int n).

(** [s.replace('M', '')] *)
Fixpoint replace_M (s : string) : string :=
  match s with
  | EmptyString => EmptyString
  | String c rest =>
      if Ascii.eqb c "M"%char then replace_M rest else String c (replace_M rest)
  end.

(** [c in '+-'] *)
Definition sign (c : ascii) : bool :=
  (Ascii.eqb c "+"%char || Ascii.eqb c "-"%char)%bool.

(** [s.zfill(2)]: a string of two or more code points is returned as it
    is; a shorter one is padded with zeros on the left up to two code
    points, and a leading sign stays in front of the padding. *)
Definition zfill2 (s : string) : string :=
  match len s with
  | O => String "0" (String "0" s)
  | S O =>
      match s with
      | String c rest => if sign c then String c (String "0" rest) else String "0" s
      | EmptyString => String "0" s
      end
  | _ => s
  end.

(** [s[:n]]: the first [n] code points. *)
Fixpoint take (n : nat) (s : string) : string :=
  match s with
  | EmptyString => EmptyString
  | String c rest =>
      if continuation c then String c (take n rest)
      else
        match n with
        | O => EmptyString
        | S k => String c (take k rest)
        end
  end.

(** [x in xs] for a string and a list of strings *)
Definition contains (x : string) (xs : list string) : bool :=
  existsb (String.eqb x) xs.

(** [a / b] on floats: Python raises where IEEE 754 would answer with an
    infinity or a NaN. *)
Definition truediv (a b : float) : result float :=
  if PrimFloat.eqb b 0%float then Raise ZeroDivisionError else Ok (a / b)%float.

(** [round(x, 1)].  CPython prints [x] with one digit after the point,
    correctly rounded (ties on the exact binary value go to the even
    digit), and reads the decimal back as the nearest double; NaN and the
    infinities round to themselves.  Here [d] is the exact value of [x]
    times ten, rounded to an integer, and the result is the double
    nearest to [d / 10]. *)
Definition round1 (x : float) : float :=
  match Prim2SF x with
  | S754_finite s m e =>
      let n := 10 * Z.pos m in
      let d :=
        match e with
        | Z.neg p =>
            let D := Z.pow_pos 2 p in
            let q := n / D in
            let r := n mod D in
            match Z.compare (2 * r) D with
            | Lt => q
            | Gt => q + 1
            | Eq => if Z.even q then q else q + 1
            end
        | _ => Z.shiftl n e
        end in
      match d with
      | Z.pos p => SF2Prim (SFdiv prec emax (S754_finite s p 0) (S754_finite false 10 0))
      | _ => SF2Prim (S754_zero s)
      end
  | _ => x
  end.

End Py.

(** ** Data model *)

(** The dictionary an adapter returns ([new_data] in the orchestrator). *)
Record NormalizedObservation : Type := {
  nd_name : string;
  nd_value : float;
  nd_date : string;
  nd_source : string;
  nd_unit : string;
}.

(** One element of a series' ['data'] list, with the keys ['month'],
    ['value'] and ['date']. *)
Record Observation : Type := {
  o_month : string;
  o_value : float;
  o_date : string;
}.

(** One entry of the store, with the keys ['name'], ['unit'], ['source'],
    ['data'] and ['lastUpdate']; the last one is absent until the first
    append. *)
Record IndicatorSeries : Type := {
  s_name : string;
  s_unit : string;
  s_source : string;
  s_data : list Observation;
  s_lastUpdate : option string;
}.

Abbreviation Store := (gmap string IndicatorSeries).

(** ** Decoded provider payloads

    What [response.json()] yields, with the shape the two providers
    document.  Leaf values are strings, as both providers send them; in
    particular every date is a string, so that the slice of line 150
    is defined on it. *)

(** An element of [data['Results']['series'][i]['data']]. *)
Record bls_entry : Type := {
  bls_year : string;
  bls_period : string;
  bls_value : string;
}.

(** [Results_series] lists, for every element of
    [data['Results']['series']], its ['data'] list. *)
Record bls_body : Type := {
  status : string;
  Results_series : list (list bls_entry);
}.

(** An element of [data['observations']]. *)
Record fred_entry : Type := {
  fred_date : string;
  fred_value : string;
}.

(** [observations] is [None] when the key ['observations'] is missing. *)
Record fred_body : Type := {
  observations : option (list fred_entry);
}.

(** The JSON body posted to the first provider. *)
Record bls_request : Type := {
  seriesid : list string;
  startyear : string;
  endyear : string;
}.

(** The query parameters sent to the second provider. *)
Record fred_request : Type := {
  series_id : string;
  api_key : string;
  file_type : string;
  sort_order : string;
  limit : Z;
}.

(** The outcome of one HTTP exchange followed by [response.json()]. *)
Inductive http (B : Type) : Type :=
| HttpRaise (e : exn)
| HttpJson (body : B).
Arguments HttpRaise {B} e.
Arguments HttpJson {B} body.

(** ** The file behind [DATA_FILE] *)

(** What a reader of ['data/indicators.json'] finds: no file, a file that
    holds less than one complete JSON document (empty or cut short), or a
    complete document. *)
Inductive file : Type :=
| NoFile
| Truncated
| Document (s : Store).

(** Where the file system refuses [save_data]: nowhere, before the file is
    opened ([os.makedirs] or [open] raises), or after it has been opened
    for writing ([json.dump] or the closing flush raises). *)
Inductive disk_fault : Type :=
| NoFault
| FailOpen
| FailWrite.

(** ** The world a run executes in *)

Record World : Type := {
  (** [os.environ.get('FRED_API_KEY')] *)
  FRED_API_KEY : option string;
  (** the first provider's answer to a POST *)
  bls_api : bls_request -> http bls_body;
  (** the second provider's answer to a GET *)
  fred_api : fred_request -> http fred_body;
  (** [datetime.now().year] as read by the adapter call for a series id *)
  year_now : string -> Z;
  (** [datetime.now().isoformat()] as read when a key is appended to *)
  iso_now : string -> string;
  (** the file system's behaviour at the final write *)
  fault : disk_fault;
}.

(** ** What a run leaves behind besides its result *)

Inductive level : Type := INFO | WARNING | ERROR.

Inductive message : Type :=
| MsgStart                            (* line 119 *)
| MsgBlsFailed (name : string) (e : exn)     (* line 76 *)
| MsgNoKey (name : string)                   (* line 90 *)
| MsgFredFailed (name : string) (e : exn)    (* line 114 *)
| MsgUpdated (key : string) (v : float)      (* line 156 *)
| MsgUpdateFailed (key : string) (e : exn)   (* line 158 *)
| MsgDone (n : nat).                         (* line 161 *)

Inductive event : Type :=
| Post (url : string) (json : bls_request)
| Get (url : string) (params : fred_request)
| Log (l : level) (m : message).

(** ** The adapters *)

Definition BLS_URL : string := "https://api.bls.gov/publicAPI/v2/timeseries/data/".
Definition FRED_URL : string := "https://api.stlouisfed.org/fred/series/observations".

(** The series whose values are turned into a year-over-year rate. *)
Definition CPI_SERIES : string := "CUUR0000SA0".

(** Python's [float(s)] and [int(s)] on a string: the parsed number, or
    [None] where Python raises [ValueError].  The program is studied for
    whatever these two parsers accept, so they stay an interface. *)
Class Builtins : Type := {
  py_float : string -> option float;
  py_int : string -> option Z;
}.

Section Scraper.

Context `{!Builtins}.

Definition float_ (s : string) : result float :=
  match py_float s with
  | Some x => Ok x
  | None => Raise ValueError
  end.

Definition int_ (s : string) : result Z :=
  match py_int s with
  | Some n => Ok n
  | None => Raise ValueError
  end.

(** The condition of the comprehension on lines 62-63:
    [d['year'] == str(int(year)-1) and d['period'] == latest['period']]. *)
Definition is_year_ago (latest d : bls_entry) : result bool :=
  let* y := int_ (bls_year latest) in
  ret (String.eqb (bls_year d) (Py.str (y - 1))
       && String.eqb (bls_period d) (bls_period latest))%bool.

(** Lines 59-66: the value after the optional year-over-year transform. *)
Definition inflation_rate (series_id : string) (series_data : list bls_entry)
    (latest : bls_entry) (value : float) : result float :=
  if String.eqb series_id CPI_SERIES then
    let* year_ago := filterM (is_year_ago latest) series_data in
    match year_ago with
    | d :: _ =>
        let* year_ago_value := float_ (bls_value d) in
        let* ratio := Py.truediv (value - year_ago_value)%float year_ago_value in
        ret (ratio * 100)%float
    | [] => ret value
    end
  else ret value.

(** Lines 53-74: the body of the [try] once the response is decoded.
    [Ok None] is the fall-through to the final [return None] when the
    status is not ['REQUEST_SUCCEEDED']. *)
Definition bls_parse (series_id name unit : string) (data : bls_body)
    : result (option NormalizedObservation) :=
  if String.eqb (status data) "REQUEST_SUCCEEDED" then
    let* series0 := first (Results_series data) in
    let* latest := first series0 in
    let year := bls_year latest in
    let month := Py.zfill2 (Py.replace_M (bls_period latest)) in
    let* value := float_ (bls_value latest) in
    let* value := inflation_rate series_id series0 latest value in
    ret (Some {| nd_name := name;
                 nd_value := Py.round1 value;
                 nd_date := year ++ "-" ++ month ++ "-01";
                 nd_source := "BLS";
                 nd_unit := unit |})
  else ret None.

(** Lines 42-48: the request for the last two calendar years. *)
Definition bls_payload (w : World) (series_id : string) : bls_request :=
  let current_year := year_now w series_id in
  {| seriesid := [series_id];
     startyear := Py.str (current_year - 1);
     endyear := Py.str current_year |}.

(** Lines 38-77.  The result is paired with the requests and log lines
    the call produces, in order. *)
Definition fetch_bls_data (w : World) (series_id name unit : string)
    : option NormalizedObservation * list event :=
  let payload := bls_payload w series_id in
  let outcome :=
    match bls_api w payload with
    | HttpRaise e => Raise e
    | HttpJson data => bls_parse series_id name unit data
    end in
  match outcome with
  | Ok r => (r, [Post BLS_URL payload])
  | Raise e => (None, [Post BLS_URL payload; Log ERROR (MsgBlsFailed name e)])
  end.

(** Lines 104-112: the body of the [try] once the response is decoded. *)
Definition fred_parse (name unit : string) (data : fred_body)
    : result (option NormalizedObservation) :=
  match observations data with
  | Some (latest :: _) =>
      let* v := float_ (fred_value latest) in
      ret (Some {| nd_name := name;
                   nd_value := Py.round1 v;
                   nd_date := fred_date latest;
                   nd_source := "FRED";
                   nd_unit := unit |})
  | _ => ret None
  end.

(** Lines 93-99: the query for the single most recent observation. *)
Definition fred_params (api_key series_id : string) : fred_request :=
  {| series_id := series_id;
     api_key := api_key;
     file_type := "json";
     sort_order := "desc";
     limit := 1 |}.

(** Lines 79-115.  [os.environ.get('FRED_API_KEY', '')] is the empty
    string when the variable is not set. *)
Definition fetch_fred_data (w : World) (series_id name unit : string)
    : option NormalizedObservation * list event :=
  let api_key := default "" (FRED_API_KEY w) in
  if String.eqb api_key "" then
    (None, [Log WARNING (MsgNoKey name)])
  else
    let params := fred_params api_key series_id in
    let outcome :=
      match fred_api w params with
      | HttpRaise e => Raise e
      | HttpJson data => fred_parse name unit data
      end in
    match outcome with
    | Ok r => (r, [Get FRED_URL params])
    | Raise e => (None, [Get FRED_URL params; Log ERROR (MsgFredFailed name e)])
    end.

(** ** The store *)

(** Lines 25-30. *)
Definition load_data (f : file) : result Store :=
  match f with
  | NoFile => Ok ∅
  | Truncated => Raise JSONDecodeError
  | Document s => Ok s
  end.

(** Lines 32-36.  Besides the result, the states the visible file passes
    through, in order: [open(DATA_FILE, 'w')] empties the file in place,
    [json.dump] and the end of the [with] block fill it. *)
Definition save_data (flt : disk_fault) (data : Store) : result unit * list file :=
  match flt with
  | FailOpen => (Raise OSError, [])
  | FailWrite => (Raise OSError, [Truncated])
  | NoFault => (Ok tt, [Truncated; Document data])
  end.

(** ** The orchestrator *)

(** Lines 123-129: key and fetcher, in the order of the dictionary. *)
Definition indicators_config
    : list (string * (World -> option NormalizedObservation * list event)) :=
  [ ("cpi", fun w => fetch_bls_data w "CUUR0000SA0" "CPI通胀率" "%");
    ("unemployment", fun w => fetch_bls_data w "LNS14000000" "失业率" "%");
    ("fed_rate", fun w => fetch_fred_data w "DFEDTARU" "联邦基金利率" "%");
    ("ism", fun w => fetch_fred_data w "NAPM" "ISM制造业指数" "点");
    ("consumer_confidence", fun w => fetch_fred_data w "UMCSENT" "消费者信心指数" "点") ].

(** The state of the loop: the in-memory store [data], the list
    [updated], and the events so far. *)
Record loop_state : Type := {
  ls_data : Store;
  ls_updated : list string;
  ls_events : list event;
}.

(** Lines 139-144: the series a new key starts with. *)
Definition new_series (new_data : NormalizedObservation) : IndicatorSeries :=
  {| s_name := nd_name new_data;
     s_unit := nd_unit new_data;
     s_source := nd_source new_data;
     s_data := [];
     s_lastUpdate := None |}.

(** Lines 138-144: create the series if the key is new. *)
Definition ensure_series (key : string) (new_data : NormalizedObservation)
    (data : Store) : Store :=
  match data !! key with
  | None => <[key := new_series new_data]> data
  | Some _ => data
  end.

(** Lines 149-154: the series after the append. *)
Definition append_observation (now : string) (new_data : NormalizedObservation)
    (series : IndicatorSeries) : IndicatorSeries :=
  {| s_name := s_name series;
     s_unit := s_unit series;
     s_source := s_source series;
     s_data := s_data series ++ [ {| o_month := Py.take 7 (nd_date new_data);
                                     o_value := nd_value new_data;
                                     o_date := nd_date new_data |} ];
     s_lastUpdate := Some now |}.

(** Lines 137-156: merge one fetched observation under [key].  The
    result says whether the key changed. *)
Definition merge (now : string) (key : string) (new_data : NormalizedObservation)
    (data : Store) : result (Store * bool) :=
  let data := ensure_series key new_data data in
  match data !! key with
  | None => Raise KeyError
  | Some series =>
      let existing_dates := map o_date (s_data series) in
      if Py.contains (nd_date new_data) existing_dates then
        ret (data, false)
      else
        ret (<[key := append_observation now new_data series]> data, true)
  end.

(** Lines 133-158: one iteration of the loop.  The last branch is the
    handler of lines 157-158: the exception is logged and the loop goes
    on, with the series that lines 139-144 may have created left in the
    dictionary.  On the payloads above neither the adapters nor the
    merge raise, and the branch is not entered. *)
Definition update_indicator (w : World) (st : loop_state)
    (entry : string * (World -> option NormalizedObservation * list event))
    : loop_state :=
  let (key, fetcher) := entry in
  let (new_data, evs) := fetcher w in
  match new_data with
  | None => {| ls_data := ls_data st;
               ls_updated := ls_updated st;
               ls_events := ls_events st ++ evs |}
  | Some nd =>
      match merge (iso_now w key) key nd (ls_data st) with
      | Ok (data, true) =>
          {| ls_data := data;
             ls_updated := ls_updated st ++ [key];
             ls_events := ls_events st ++ evs ++ [Log INFO (MsgUpdated key (nd_value nd))] |}
      | Ok (data, false) =>
          {| ls_data := data;
             ls_updated := ls_updated st;
             ls_events := ls_events st ++ evs |}
      | Raise e =>
          {| ls_data := ensure_series key nd (ls_data st);
             ls_updated := ls_updated st;
             ls_events := ls_events st ++ evs ++ [Log ERROR (MsgUpdateFailed key e)] |}
      end
  end.

(** What a run yields: the value returned or the exception raised, the
    states the visible file went through, and the events. *)
Record run : Type := {
  returned : result (list string);
  written : list file;
  events : list event;
}.

(** The file a reader finds once the run is over. *)
Definition file_after (f : file) (r : run) : file := List.last (written r) f.

(** Lines 117-162. *)
Definition update_all_indicators (w : World) (f : file) : run :=
  match load_data f with
  | Raise e => {| returned := Raise e; written := []; events := [Log INFO MsgStart] |}
  | Ok data =>
      let st := fold_left (update_indicator w) indicators_config
                  {| ls_data := data; ls_updated := []; ls_events := [Log INFO MsgStart] |} in
      match save_data (fault w) (ls_data st) with
      | (Ok _, states) =>
          {| returned := Ok (ls_updated st);
             written := states;
             events := ls_events st ++ [Log INFO (MsgDone (length (ls_updated st)))] |}
      | (Raise e, states) =>
          {| returned := Raise e; written := states; events := ls_events st |}
      end
  end.

(** ** The on-demand trigger *)

(** The two JSON replies of [/api/update]. *)
Inductive reply : Type :=
| Reply200 (success : bool) (count : nat) (updated : list string)
| Reply500 (success : bool) (error : exn).

(** Lines 199-209. *)
Definition manual_update (w : World) (f : file) : reply * run :=
  let r := update_all_indicators w f in
  match returned r with
  | Ok updated => (Reply200 true (length updated) updated, r)
  | Raise e => (Reply500 false e, r)
  end.

End Scraper.

(** ** Vocabulary of the properties *)

(** The ['date'] values of a series, in order. *)
Definition dates (s : IndicatorSeries) : list string := map o_date (s_data s).

(** The dates recorded under [key], none if the key is absent. *)
Definition dates_of (store : Store) (key : string) : list string :=
  match store !! key with
  | Some s => dates s
  | None => []
  end.

(** [s'] keeps the name, unit and source of [s] and starts with the
    observations of [s], unchanged and in the same order. *)
Definition extends (s s' : IndicatorSeries) : Prop :=
  s_name s' = s_name s /\ s_unit s' = s_unit s /\ s_source s' = s_source s /\
  s_data s `prefix_of` s_data s'.

(** Every series of [store] is still there in [store'], extended. *)
Definition append_only (store store' : Store) : Prop :=
  forall key s, store !! key = Some s ->
    exists s', store' !! key = Some s' /\ extends s s'.

(** The second world has the credential of the first, and its providers
    give each request of a run the answer they gave in the first. *)
Definition same_responses (w1 w2 : World) : Prop :=
  FRED_API_KEY w2 = FRED_API_KEY w1 /\
  (forall sid, bls_api w2 (bls_payload w2 sid) = bls_api w1 (bls_payload w1 sid)) /\
  (forall params, fred_api w2 params = fred_api w1 params).

(** The adapter of the registry entry succeeds in [w] with a date that
    [store] does not hold under the entry's key. *)
Definition contributes (w : World) (store : Store)
    (entry : string * (World -> option NormalizedObservation * list event)) : bool :=
  match fst (snd entry w) with
  | Some nd => negb (Py.contains (nd_date nd) (dates_of store (fst entry)))
  | None => false
  end.

(** The events of one iteration that starts from [store]: those of the
    adapter, then the line that reports the update, if any. *)
Definition entry_events (w : World) (store : Store)
    (entry : string * (World -> option NormalizedObservation * list event)) : list event :=
  snd (snd entry w) ++
  match fst (snd entry w) with
  | Some nd =>
      if contributes w store entry
      then [Log INFO (MsgUpdated (fst entry) (nd_value nd))]
      else []
  | None => []
  end.

(** The store after one iteration that starts from [store]: the entry's
    series gains the fetched observation when the entry contributes, and
    nothing changes otherwise. *)
Definition step_store (w : World) (store : Store)
    (entry : string * (World -> option NormalizedObservation * list event)) : Store :=
  match fst (snd entry w) with
  | Some nd =>
      if contributes w store entry
      then <[fst entry := append_observation (iso_now w (fst entry)) nd
                            (default (new_series nd) (store !! fst entry))]> store
      else store
  | None => store
  end.

(** The store at the end of the loop, the keys the loop reports, and the
    events of the loop, for a run that loaded [store]. *)
Definition final_store `{!Builtins} (w : World) (store : Store) : Store :=
  fold_left (step_store w) indicators_config store.

Definition changed_keys `{!Builtins} (w : World) (store : Store) : list string :=
  map fst (List.filter (contributes w store) indicators_config).

Definition loop_events_of `{!Builtins} (w : World) (store : Store) : list event :=
  Log INFO MsgStart :: flat_map (entry_events w store) indicators_config.

Definition is_get (ev : event) : bool :=
  match ev with
  | Get _ _ => true
  | _ => false
  end.


(** The test of lines 62-63 once [int(year)] has given [y]. *)
Definition matches_year_ago (latest : bls_entry) (y : Z) (d : bls_entry) : bool :=
  (String.eqb (bls_year d) (Py.str (y - 1))
   && String.eqb (bls_period d) (bls_period latest))%bool.

(** The dictionary of lines 68-74 for the entry [latest] and the value
    [v] reached before rounding. *)
Definition bls_observation (name unit : string) (latest : bls_entry) (v : float)
    : NormalizedObservation :=
  {| nd_name := name;
     nd_value := Py.round1 v;
     nd_date := (bls_year latest ++ "-"
                 ++ Py.zfill2 (Py.replace_M (bls_period latest)) ++ "-01")%string;
     nd_source := "BLS";
     nd_unit := unit |}.

(** The keys served by the credentialed adapter. *)
Definition fred_keys : list string := ["fed_rate"; "ism"; "consumer_confidence"].

Definition is_failure (r : reply) : bool :=
  match r with
  | Reply500 _ _ => true
  | Reply200 _ _ _ => false
  end.

(** ** Sample inputs

    Concrete parsers, payloads, worlds and stores on which the theorems
    below are exercised. *)

Module Sample.

(** *** [float(s)] and [int(s)]

    The two parsers as CPython 3.11 runs them on a [str]: code points
    beyond ASCII that are blanks or decimal digits are first replaced by
    a space or by the ASCII digit; blanks are stripped at both ends; an
    underscore may stand between two digits; the rest is a signed
    decimal numeral, for [float] with a fraction and an exponent, or one
    of [inf], [infinity] and [nan] in any case.  The value of a numeral
    is the nearest double. *)

(** The code points of a UTF-8 string; [None] if it is not UTF-8. *)
Definition tail_byte (c : ascii) : option Z :=
  if Py.continuation c then Some (Z.of_nat (nat_of_ascii c) - 128) else None.

Definition in_range (lo hi cp : Z) : option Z :=
  if ((lo <=? cp) && (cp <=? hi))%bool then Some cp else None.

Fixpoint code_points (cs : list ascii) : option (list Z) :=
  match cs with
  | [] => Some []
  | c :: rest =>
      let b := Z.of_nat (nat_of_ascii c) in
      if b <? 128 then cons b <$> code_points rest
      else if b <? 194 then None
      else if b <? 224 then
        match rest with
        | c1 :: rest =>
            b1 ← tail_byte c1;
            cons ((b - 192) * 64 + b1) <$> code_points rest
        | _ => None
        end
      else if b <? 240 then
        match rest with
        | c1 :: c2 :: rest =>
            b1 ← tail_byte c1; b2 ← tail_byte c2;
            cp ← in_range 2048 65535 ((b - 224) * 4096 + b1 * 64 + b2);
            if ((55296 <=? cp) && (cp <=? 57343))%bool then None
            else cons cp <$> code_points rest
        | _ => None
        end
      else
        match rest with
        | c1 :: c2 :: c3 :: rest =>
            b1 ← tail_byte c1; b2 ← tail_byte c2; b3 ← tail_byte c3;
            cp ← in_range 65536 1114111 ((b - 240) * 262144 + b1 * 4096 + b2 * 64 + b3);
            cons cp <$> code_points rest
        | _ => None
        end
  end.

(** The code points beyond ASCII for which [str.isspace] holds. *)
Definition unicode_blanks : list Z :=
  [133; 160; 5760; 8192; 8193; 8194; 8195; 8196; 8197; 8198; 8199; 8200; 8201; 8202;
   8232; 8233; 8239; 8287; 12288].

(** The digit zero of every run of ten decimal digits beyond ASCII
    (Unicode 14, general category Nd). *)
Definition unicode_zeros : list Z :=
  [1632; 1776; 1984; 2406; 2534; 2662; 2790; 2918; 3046; 3174; 3302; 3430; 3558; 3664;
   3792; 3872; 4160; 4240; 6112; 6160; 6470; 6608; 6784; 6800; 6992; 7088; 7232; 7248;
   42528; 43216; 43264; 43472; 43504; 43600; 44016; 65296; 66720; 68912; 69734; 69872;
   69942; 70096; 70384; 70736; 70864; 71248; 71360; 71472; 71904; 72016; 72784; 73040;
   73120; 92768; 92864; 93008; 120782; 120792; 120802; 120812; 120822; 123200; 123632;
   125264; 130032].

(** One code point as the ASCII character the parsers read. *)
Definition to_ascii (cp : Z) : option ascii :=
  if cp <? 128 then Some (ascii_of_nat (Z.to_nat cp))
  else if existsb (Z.eqb cp) unicode_blanks then Some " "%char
  else
    match List.find (fun z => ((z <=? cp) && (cp <? z + 10))%bool) unicode_zeros with
    | Some z => Some (ascii_of_nat (Z.to_nat (48 + cp - z)))
    | None => None
    end.

Definition blank (c : ascii) : bool :=
  let n := Z.of_nat (nat_of_ascii c) in
  (((9 <=? n) && (n <=? 13)) || (n =? 32))%bool.

Fixpoint lstrip (cs : list ascii) : list ascii :=
  match cs with
  | c :: rest => if blank c then lstrip rest else cs
  | [] => []
  end.

(** The characters the parser reads: transliterated and stripped. *)
Definition prepare (s : string) : option (list ascii) :=
  cps ← code_points (list_ascii_of_string s);
  cs ← mapM to_ascii cps;
  Some (rev (lstrip (rev (lstrip cs)))).

Definition digit (c : ascii) : option Z :=
  let n := Z.of_nat (nat_of_ascii c) in
  if ((48 <=? n) && (n <=? 57))%bool then Some (n - 48) else None.

(** Takes a sign off the front; [true] for a minus. *)
Definition signed (cs : list ascii) : bool * list ascii :=
  match cs with
  | c :: rest =>
      if Ascii.eqb c "-"%char then (true, rest)
      else if Ascii.eqb c "+"%char then (false, rest)
      else (false, cs)
  | [] => (false, [])
  end.

(** Reads on in a run of digits with single underscores between them:
    the numeral read so far, the number of its digits, and what is left. *)
Fixpoint more_digits (acc n : Z) (cs : list ascii) : Z * Z * list ascii :=
  match cs with
  | c :: rest =>
      match digit c with
      | Some d => more_digits (10 * acc + d) (n + 1) rest
      | None =>
          if Ascii.eqb c "_"%char then
            match rest with
            | c' :: rest' =>
                match digit c' with
                | Some d => more_digits (10 * acc + d) (n + 1) rest'
                | None => (acc, n, cs)
                end
            | [] => (acc, n, cs)
            end
          else (acc, n, cs)
      end
  | [] => (acc, n, [])
  end.

(** A run of at least one digit that continues the numeral [acc]. *)
Definition digitpart (acc : Z) (cs : list ascii) : option (Z * Z * list ascii) :=
  match cs with
  | c :: rest =>
      match digit c with
      | Some d => Some (more_digits (10 * acc + d) 1 rest)
      | None => None
      end
  | [] => None
  end.

(** [int(s)] on a string, base ten.  A numeral of more than 4300
    digits is refused, as [sys.get_int_max_str_digits()] has it. *)
Definition int_of_digits (s : string) : option Z :=
  cs ← prepare s;
  let (minus, cs) := signed cs in
  match digitpart 0 cs with
  | Some (m, n, []) => if n <=? 4300 then Some (if minus then - m else m) else None
  | _ => None
  end.

(** [digits], [digits.], [digits.digits] or [.digits]: the digits as one
    numeral, the number of those after the point, and what is left. *)
Definition mantissa (cs : list ascii) : option (Z * Z * list ascii) :=
  match digitpart 0 cs with
  | Some (m, _, c :: rest) =>
      if Ascii.eqb c "."%char then
        match digitpart m rest with
        | Some r => Some r
        | None => Some (m, 0, rest)
        end
      else Some (m, 0, c :: rest)
  | Some (m, _, []) => Some (m, 0, [])
  | None =>
      match cs with
      | c :: rest => if Ascii.eqb c "."%char then digitpart 0 rest else None
      | [] => None
      end
  end.

Definition lower (c : ascii) : ascii :=
  let n := nat_of_ascii c in
  if (Nat.leb 65 n && Nat.leb n 90)%bool then ascii_of_nat (n + 32) else c.

(** Nothing, or [e] or [E] with a signed run of digits, up to the end. *)
Definition exponent (cs : list ascii) : option Z :=
  match cs with
  | [] => Some 0
  | c :: rest =>
      if Ascii.eqb (lower c) "e"%char then
        let (minus, rest) := signed rest in
        match digitpart 0 rest with
        | Some (e, _, []) => Some (if minus then - e else e)
        | _ => None
        end
      else None
  end.

(** The double nearest to [m * 10 ^ e], ties to even, with the sign
    [minus]; an infinity beyond the largest double. *)
Definition nearest (minus : bool) (m e : Z) : float :=
  match m with
  | Z.pos p =>
      match e with
      | Z.neg k =>
          SF2Prim (SFdiv prec emax (S754_finite minus p 0)
                     (S754_finite false (Pos.pow 10 k) 0))
      | _ =>
          match Z.mul m (Z.pow 10 e) with
          | Z.pos q => SF2Prim (SFdiv prec emax (S754_finite minus q 0) (S754_finite false 1 0))
          | _ => SF2Prim (S754_zero minus)
          end
      end
  | _ => SF2Prim (S754_zero minus)
  end.

Definition special (cs : list ascii) : option float :=
  let word := string_of_list_ascii (map lower cs) in
  if (String.eqb word "inf" || String.eqb word "infinity")%bool then Some infinity
  else if String.eqb word "nan" then Some nan
  else None.

(** [float(s)] on a string. *)
Definition float_of_decimal (s : string) : option float :=
  cs ← prepare s;
  let (minus, cs) := signed cs in
  match special cs with
  | Some x => Some (if minus then (- x)%float else x)
  | None =>
      match mantissa cs with
      | Some (m, k, rest) =>
          match exponent rest with
          | Some e => Some (nearest minus m (e - k))
          | None => None
          end
      | None => None
      end
  end.

#[export] Instance parsers : Builtins :=
  {| py_float := float_of_decimal; py_int := int_of_digits |}.

Definition entry (y p v : string) : bls_entry :=
  {| bls_year := y; bls_period := p; bls_value := v |}.

(** A price-index answer: May 2024 at 118.0, May 2023 at 110.0. *)
Definition cpi_body : bls_body :=
  {| status := "REQUEST_SUCCEEDED";
     Results_series :=
       [ [ entry "2024" "M05" "118.0"; entry "2024" "M04" "117.2";
           entry "2023" "M05" "110.0"; entry "2023" "M04" "109.5" ] ] |}.

(** The same answer without the year-ago month. *)
Definition cpi_body_short : bls_body :=
  {| status := "REQUEST_SUCCEEDED";
     Results_series := [ [ entry "2024" "M05" "118.0"; entry "2024" "M04" "117.2" ] ] |}.

Definition fred_body_of (d v : string) : fred_body :=
  {| observations := Some [ {| fred_date := d; fred_value := v |} ] |}.

(** A world of June 2024 in which each provider gives every request the
    same answer. *)
Definition world (credential : option string) (bls : http bls_body)
    (fred : http fred_body) (now : string) (flt : disk_fault) : World :=
  {| FRED_API_KEY := credential;
     bls_api := fun _ => bls;
     fred_api := fun _ => fred;
     year_now := fun _ => 2024;
     iso_now := fun _ => now;
     fault := flt |}.

Definition fred_ok : http fred_body := HttpJson (fred_body_of "2024-05-15" "5.5").

(** Every provider answers; the credential is configured. *)
Definition world_ok : World :=
  world (Some "secret") (HttpJson cpi_body) fred_ok "2024-06-01T00:00:00" NoFault.

(** The same world one day later: same answers, another clock. *)
Definition world_next_day : World :=
  world (Some "secret") (HttpJson cpi_body) fred_ok "2024-06-02T00:00:00" NoFault.

(** As [world_ok], with the shorter price-index answer. *)
Definition world_short : World :=
  world (Some "secret") (HttpJson cpi_body_short) fred_ok "2024-06-01T00:00:00" NoFault.

(** The first provider times out, the second one answers. *)
Definition world_bls_down : World :=
  world (Some "secret") (HttpRaise Timeout) fred_ok "2024-06-01T00:00:00" NoFault.

(** No credential in the environment. *)
Definition world_no_key : World :=
  world None (HttpJson cpi_body) fred_ok "2024-06-01T00:00:00" NoFault.

(** The final write fails once the file is open. *)
Definition world_disk_full : World :=
  world (Some "secret") (HttpJson cpi_body) fred_ok "2024-06-01T00:00:00" FailWrite.

(** The second provider cannot be reached. *)
Definition world_fred_down : World :=
  world (Some "secret") (HttpJson cpi_body) (HttpRaise ConnectionError)
    "2024-06-01T00:00:00" NoFault.

(** The second provider marks the latest value as missing. *)
Definition world_fred_dot : World :=
  world (Some "secret") (HttpJson cpi_body) (HttpJson (fred_body_of "2024-05-15" "."))
    "2024-06-01T00:00:00" NoFault.

(** The second provider answers with an empty list of observations. *)
Definition world_fred_empty : World :=
  world (Some "secret") (HttpJson cpi_body) (HttpJson {| observations := Some [] |})
    "2024-06-01T00:00:00" NoFault.

Definition observation (d : string) (v : float) : Observation :=
  {| o_month := Py.take 7 d; o_value := v; o_date := d |}.

(** A rate series holding one observation of 1 May 2024. *)
Definition fed_series : IndicatorSeries :=
  {| s_name := "联邦基金利率"; s_unit := "%"; s_source := "FRED";
     s_data := [ observation "2024-05-01" 5.5%float ];
     s_lastUpdate := Some "2024-05-02T00:00:00" |}.

Definition store1 : Store := {[ "fed_rate" := fed_series ]}.

Definition fed_observation (d : string) : NormalizedObservation :=
  {| nd_name := "联邦基金利率"; nd_value := 5.5%float; nd_date := d;
     nd_source := "FRED"; nd_unit := "%" |}.

(** Further answers of the first provider: a rejected request, no
    series at all, a missing latest value, a year that is no number, a
    missing and a zero value for the year before. *)
Definition rejected_body : bls_body :=
  {| status := "REQUEST_NOT_PROCESSED"; Results_series := [] |}.

Definition empty_body : bls_body :=
  {| status := "REQUEST_SUCCEEDED"; Results_series := [] |}.

Definition dash_body : bls_body :=
  {| status := "REQUEST_SUCCEEDED";
     Results_series := [ [ entry "2024" "M05" "-"; entry "2023" "M05" "110.0" ] ] |}.

Definition bad_year_body : bls_body :=
  {| status := "REQUEST_SUCCEEDED";
     Results_series := [ [ entry "20x4" "M05" "118.0"; entry "2023" "M05" "110.0" ] ] |}.

Definition dash_year_ago_body : bls_body :=
  {| status := "REQUEST_SUCCEEDED";
     Results_series := [ [ entry "2024" "M05" "118.0"; entry "2023" "M05" "-" ] ] |}.

Definition zero_year_ago_body : bls_body :=
  {| status := "REQUEST_SUCCEEDED";
     Results_series := [ [ entry "2024" "M05" "118.0"; entry "2023" "M05" "0.0" ] ] |}.

(** A period written with one digit. *)
Definition one_digit_body : bls_body :=
  {| status := "REQUEST_SUCCEEDED";
     Results_series := [ [ entry "2024" "M5" "4.1" ] ] |}.

(** The world in which the first provider answers with [b]. *)
Definition world_bls (b : bls_body) : World :=
  world (Some "secret") (HttpJson b) fred_ok "2024-06-01T00:00:00" NoFault.

(** No provider can be reached. *)
Definition world_all_down : World :=
  world (Some "secret") (HttpRaise Timeout) (HttpRaise Timeout)
    "2024-06-01T00:00:00" NoFault.

Definition all_keys : list string :=
  ["cpi"; "unemployment"; "fed_rate"; "ism"; "consumer_confidence"].

End Sample.

(** ** The read endpoints and the schedule *)

(** The JSON bodies of the read endpoints; [Reply404] goes out with
    status 404, the others with 200.  An exception that leaves an
    endpoint is the framework's 500.  The store is a finite map, as a
    JSON object is, and keeps no order among its keys; so the array
    ['indicators'] of the status reply, which lists the keys of the
    dictionary, each once, is held as the set of its elements. *)
Inductive read_reply : Type :=
| ReplyAll (success : bool) (data : Store) (timestamp : string)
| ReplyOne (success : bool) (data : IndicatorSeries) (timestamp : string)
| Reply404 (success : bool) (error : string)
| ReplyStatus (success : bool) (status : string) (indicators_count : nat)
    (indicators : gset string).

(** Lines 179-186; [now] is [datetime.now().isoformat()]. *)
Definition get_all_indicators (f : file) (now : string) : result read_reply :=
  let* data := load_data f in
  ret (ReplyAll true data now).

(** Lines 188-197. *)
Definition get_indicator (f : file) (name now : string) : result read_reply :=
  let* data := load_data f in
  match data !! name with
  | Some series => ret (ReplyOne true series now)
  | None => ret (Reply404 false ("指标 " ++ name ++ " 不存在")%string)
  end.

(** Lines 211-219: [len(data)] and [list(data.keys())]. *)
Definition get_status (f : file) : result read_reply :=
  let* data := load_data f in
  ret (ReplyStatus true "running" (size data) (dom data)).

(** Lines 223 and 230: the job runs once at start-up and then once a day,
    each time in the world of its day and on the file the run before it
    left. *)
Fixpoint runs `{!Builtins} (ws : list World) (f : file) : file :=
  match ws with
  | [] => f
  | w :: later => runs later (file_after f (update_all_indicators w f))
  end.

(** ** Further vocabulary *)

Definition is_request (ev : event) : bool :=
  match ev with
  | Post _ _ | Get _ _ => true
  | Log _ _ => false
  end.

(** The keys of the registry. *)
Definition registry_keys `{!Builtins} : list string := map fst indicators_config.

(** What every series of a store written by the program satisfies: its
    key is in the registry, it holds at least one observation and a
    [lastUpdate], its dates are pairwise different, every observation's
    month is its date cut to seven characters, and its source is one of
    the two providers. *)
Definition series_ok `{!Builtins} (key : string) (s : IndicatorSeries) : Prop :=
  In key registry_keys
  /\ s_data s <> []
  /\ s_lastUpdate s <> None
  /\ NoDup (dates s)
  /\ Forall (fun o => o_month o = Py.take 7 (o_date o)) (s_data s)
  /\ (s_source s = "BLS"%string \/ s_source s = "FRED"%string).

Definition store_ok `{!Builtins} (store : Store) : Prop :=
  forall key s, store !! key = Some s -> series_ok key s.

Definition file_ok `{!Builtins} (f : file) : Prop :=
  match f with
  | Document store => store_ok store
  | NoFile | Truncated => True
  end.

(** No character of [s] is an ['M']. *)
Definition free_of_M (s : string) : bool :=
  forallb (fun c => negb (Ascii.eqb c "M"%char)) (list_ascii_of_string s).

(** [s] does not start with a sign. *)
Definition unsigned (s : string) : bool :=
  match s with
  | String c _ => negb (Py.sign c)
  | EmptyString => true
  end.

(** The key a log line reports as updated (line 156), if it is such a
    line. *)
Definition updated_key (ev : event) : option string :=
  match ev with
  | Log INFO (MsgUpdated key _) => Some key
  | _ => None
  end.

(** ** Properties *)

Section Properties.

Context `{!Builtins}.

Local Open Scope list_scope.

Implicit Types (w : World) (store : Store) (key : string)
  (nd : NormalizedObservation) (s : IndicatorSeries).

(** *** Membership and the append-only order *)

Lemma contains_In (x : string) (xs : list string) :
  Py.contains x xs = true <-> In x xs.
Proof.
  unfold Py.contains. rewrite existsb_exists. split.
  - intros (y & Hy & Heq). apply String.eqb_eq in Heq. now subst.
  - intros Hx. exists x. split; [assumption | apply String.eqb_refl].
Qed.

Lemma contains_false (x : string) (xs : list string) :
  Py.contains x xs = false <-> ~ In x xs.
Proof.
  rewrite <- contains_In. destruct (Py.contains x xs); split; congruence.
Qed.

Lemma extends_refl s : extends s s.
Proof. repeat split; reflexivity. Qed.

Lemma extends_trans s1 s2 s3 : extends s1 s2 -> extends s2 s3 -> extends s1 s3.
Proof.
  intros (n1 & u1 & c1 & p1) (n2 & u2 & c2 & p2).
  repeat split; try congruence. now transitivity (s_data s2).
Qed.

Lemma extends_append now nd s : extends s (append_observation now nd s).
Proof. repeat split. simpl. now apply prefix_app_r. Qed.

Lemma extends_dates s s' d : extends s s' -> In d (dates s) -> In d (dates s').
Proof.
  intros (_ & _ & _ & extra & Hd). unfold dates. rewrite Hd, map_app, in_app_iff.
  now left.
Qed.

Lemma append_only_refl store : append_only store store.
Proof. intros key s Hs. exists s. split; [assumption | apply extends_refl]. Qed.

Lemma append_only_trans store1 store2 store3 :
  append_only store1 store2 -> append_only store2 store3 -> append_only store1 store3.
Proof.
  intros H12 H23 key s Hs.
  destruct (H12 key s Hs) as (s2 & Hs2 & E2).
  destruct (H23 key s2 Hs2) as (s3 & Hs3 & E3).
  exists s3. split; [assumption | now apply extends_trans with s2].
Qed.

(** *** The merge step *)

Lemma merge_unfold now key nd store :
  merge now key nd store =
    let series := default (new_series nd) (store !! key) in
    if Py.contains (nd_date nd) (dates series)
    then Ok (ensure_series key nd store, false)
    else Ok (<[key := append_observation now nd series]> store, true).
Proof.
  unfold merge, ensure_series. destruct (store !! key) as [s|] eqn:Hs; simpl.
  - rewrite Hs. reflexivity.
  - rewrite lookup_insert_eq. simpl. now rewrite insert_insert_eq.
Qed.

Lemma ensure_series_present key nd store s :
  store !! key = Some s -> ensure_series key nd store = store.
Proof. intros Hs. unfold ensure_series. now rewrite Hs. Qed.

Lemma append_only_ensure key nd store : append_only store (ensure_series key nd store).
Proof.
  unfold ensure_series. destruct (store !! key) as [s|] eqn:Hs.
  - apply append_only_refl.
  - intros k s0 Hk. exists s0. split; [| apply extends_refl].
    rewrite lookup_insert_ne; [assumption | congruence].
Qed.

Lemma append_only_insert now key nd store :
  append_only store
    (<[key := append_observation now nd (default (new_series nd) (store !! key))]> store).
Proof.
  intros k s0 Hk. destruct (decide (key = k)) as [->|Hne].
  - rewrite lookup_insert_eq, Hk. simpl. eexists. split; [reflexivity |].
    apply extends_append.
  - rewrite lookup_insert_ne by assumption. exists s0.
    split; [assumption | apply extends_refl].
Qed.

Lemma merge_append_only now key nd store store' changed :
  merge now key nd store = Ok (store', changed) -> append_only store store'.
Proof.
  rewrite merge_unfold. simpl.
  destruct (Py.contains _ _); intros [= <- <-].
  - apply append_only_ensure.
  - apply append_only_insert.
Qed.

Lemma merge_known_date now key nd store s :
  store !! key = Some s -> In (nd_date nd) (dates s) ->
  merge now key nd store = Ok (store, false).
Proof.
  intros Hs Hin. rewrite merge_unfold, Hs. simpl.
  apply contains_In in Hin. rewrite Hin.
  now rewrite (ensure_series_present _ _ _ _ Hs).
Qed.

(** *** One iteration of the loop *)

Implicit Types (st : loop_state)
  (entry : string * (World -> option NormalizedObservation * list event)).

Lemma contains_dates_present nd store key :
  Py.contains (nd_date nd) (dates (default (new_series nd) (store !! key))) = true ->
  ensure_series key nd store = store.
Proof.
  unfold ensure_series. destruct (store !! key); [reflexivity |].
  simpl. discriminate.
Qed.

Lemma contributes_unfold w store key fetcher nd :
  fst (fetcher w) = Some nd ->
  contributes w store (key, fetcher) =
    negb (Py.contains (nd_date nd) (dates (default (new_series nd) (store !! key)))).
Proof.
  intros Hf. unfold contributes, dates_of. simpl. rewrite Hf.
  destruct (store !! key); reflexivity.
Qed.

Lemma update_indicator_unfold w st entry :
  update_indicator w st entry =
    {| ls_data := step_store w (ls_data st) entry;
       ls_updated := ls_updated st ++
                     (if contributes w (ls_data st) entry then [fst entry] else []);
       ls_events := ls_events st ++ entry_events w (ls_data st) entry |}.
Proof.
  destruct entry as [key fetcher].
  unfold update_indicator, step_store, entry_events. simpl.
  destruct (fetcher w) as [[nd|] evs] eqn:Hf; simpl.
  - rewrite (contributes_unfold w (ls_data st) key fetcher nd) by now rewrite Hf.
    rewrite merge_unfold. simpl.
    destruct (Py.contains _ _) eqn:Hc; simpl.
    + rewrite (contains_dates_present _ _ _ Hc). now rewrite !app_nil_r.
    + reflexivity.
  - unfold contributes. simpl. rewrite Hf. simpl. now rewrite !app_nil_r.
Qed.

Lemma step_store_append_only w store entry :
  append_only store (step_store w store entry).
Proof.
  unfold step_store. destruct (fst (snd entry w)); [| apply append_only_refl].
  destruct (contributes w store entry); [| apply append_only_refl].
  apply append_only_insert.
Qed.

Lemma step_store_other w store entry key :
  key <> fst entry -> step_store w store entry !! key = store !! key.
Proof.
  intros Hne. unfold step_store. destruct (fst (snd entry w)); [| reflexivity].
  destruct (contributes w store entry); [| reflexivity].
  now rewrite lookup_insert_ne by congruence.
Qed.

Lemma dates_of_mono store store' key d :
  append_only store store' -> In d (dates_of store key) -> In d (dates_of store' key).
Proof.
  intros Hap. unfold dates_of. destruct (store !! key) as [s|] eqn:Hs; [| intros []].
  destruct (Hap key s Hs) as (s' & -> & Hext). now apply extends_dates.
Qed.

Lemma contributes_mono w store store' entry :
  append_only store store' ->
  contributes w store entry = false -> contributes w store' entry = false.
Proof.
  intros Hap. unfold contributes. destruct (fst (snd entry w)); [| reflexivity].
  rewrite !negb_false_iff, !contains_In. now apply dates_of_mono.
Qed.

Lemma contributes_other w store entry entry' :
  fst entry' <> fst entry ->
  contributes w (step_store w store entry) entry' = contributes w store entry'.
Proof.
  intros Hne. unfold contributes, dates_of.
  now rewrite step_store_other by assumption.
Qed.

Lemma step_store_records w store entry :
  contributes w (step_store w store entry) entry = false.
Proof.
  destruct (contributes w store entry) eqn:Hc.
  - unfold step_store. unfold contributes in *.
    destruct (fst (snd entry w)) as [nd|]; [| reflexivity].
    rewrite Hc. apply negb_false_iff, contains_In.
    unfold dates_of. rewrite lookup_insert_eq. unfold dates. simpl.
    rewrite map_app, in_app_iff. right. now left.
  - apply contributes_mono with store; [apply step_store_append_only | assumption].
Qed.

Lemma step_store_idle w store entry :
  contributes w store entry = false -> step_store w store entry = store.
Proof.
  intros Hc. unfold step_store. rewrite Hc. now destruct (fst (snd entry w)).
Qed.

(** *** The whole loop *)

Lemma loop_data w cfg st :
  ls_data (fold_left (update_indicator w) cfg st)
  = fold_left (step_store w) cfg (ls_data st).
Proof.
  revert st. induction cfg as [|entry cfg IH]; intros st; simpl; [reflexivity |].
  rewrite IH. now rewrite update_indicator_unfold.
Qed.

Lemma loop_append_only w cfg store :
  append_only store (fold_left (step_store w) cfg store).
Proof.
  revert store. induction cfg as [|entry cfg IH]; intros store; simpl.
  - apply append_only_refl.
  - eapply append_only_trans; [apply step_store_append_only | apply IH].
Qed.

Lemma loop_other w cfg store key :
  ~ In key (map fst cfg) ->
  fold_left (step_store w) cfg store !! key = store !! key.
Proof.
  revert store. induction cfg as [|entry cfg IH]; intros store Hnot; simpl; [reflexivity |].
  simpl in Hnot. rewrite IH by tauto. apply step_store_other. intros ->. tauto.
Qed.

Lemma loop_records w cfg store entry :
  In entry cfg -> contributes w (fold_left (step_store w) cfg store) entry = false.
Proof.
  revert store. induction cfg as [|e cfg IH]; intros store Hin; simpl; [destruct Hin |].
  destruct Hin as [-> | Hin]; [| now apply IH].
  eapply contributes_mono; [apply loop_append_only | apply step_store_records].
Qed.

Lemma loop_updated w cfg st :
  NoDup (map fst cfg) ->
  ls_updated (fold_left (update_indicator w) cfg st)
  = ls_updated st ++ map fst (List.filter (contributes w (ls_data st)) cfg).
Proof.
  revert st. induction cfg as [|entry cfg IH]; intros st Hnd; simpl.
  - now rewrite app_nil_r.
  - simpl in Hnd. apply NoDup_cons in Hnd as [Hfresh Hnd].
    rewrite IH by assumption. rewrite update_indicator_unfold. simpl.
    rewrite <- app_assoc. f_equal.
    assert (Hsame : List.filter (contributes w (step_store w (ls_data st) entry)) cfg
                    = List.filter (contributes w (ls_data st)) cfg).
    { apply filter_ext_in. intros e He. apply contributes_other.
      intros Heq. apply Hfresh. rewrite <- Heq. apply list_elem_of_In.
      now apply in_map. }
    rewrite Hsame. now destruct (contributes w (ls_data st) entry).
Qed.

Lemma entry_events_other w store entry entry' :
  fst entry' <> fst entry ->
  entry_events w (step_store w store entry) entry' = entry_events w store entry'.
Proof.
  intros Hne. unfold entry_events. now rewrite contributes_other by assumption.
Qed.

Lemma loop_events w cfg st :
  NoDup (map fst cfg) ->
  ls_events (fold_left (update_indicator w) cfg st)
  = ls_events st ++ flat_map (entry_events w (ls_data st)) cfg.
Proof.
  revert st. induction cfg as [|entry cfg IH]; intros st Hnd; simpl.
  - now rewrite app_nil_r.
  - simpl in Hnd. apply NoDup_cons in Hnd as [Hfresh Hnd].
    rewrite IH by assumption. rewrite update_indicator_unfold. simpl.
    rewrite <- app_assoc. do 2 f_equal.
    rewrite !flat_map_concat_map. f_equal.
    apply map_ext_in. intros e He. apply entry_events_other.
    intros Heq. apply Hfresh. rewrite <- Heq. apply list_elem_of_In.
    now apply in_map.
Qed.

Lemma loop_idle w cfg store :
  (forall entry, In entry cfg -> contributes w store entry = false) ->
  fold_left (step_store w) cfg store = store.
Proof.
  induction cfg as [|entry cfg IH]; intros Hidle; simpl; [reflexivity |].
  rewrite step_store_idle by (apply Hidle; now left).
  apply IH. intros e He. apply Hidle. now right.
Qed.

Lemma loop_idle_updated w cfg st :
  (forall entry, In entry cfg -> contributes w (ls_data st) entry = false) ->
  ls_updated (fold_left (update_indicator w) cfg st) = ls_updated st.
Proof.
  revert st. induction cfg as [|entry cfg IH]; intros st Hidle; simpl; [reflexivity |].
  rewrite IH.
  - rewrite update_indicator_unfold. simpl.
    rewrite (Hidle entry) by now left. apply app_nil_r.
  - intros e He. rewrite update_indicator_unfold. simpl.
    rewrite step_store_idle by (apply Hidle; now left).
    apply Hidle. now right.
Qed.

Lemma config_keys :
  map fst indicators_config
  = ["cpi"; "unemployment"; "fed_rate"; "ism"; "consumer_confidence"].
Proof. reflexivity. Qed.

Lemma config_NoDup : NoDup (map fst indicators_config).
Proof.
  rewrite config_keys.
  repeat (constructor; [rewrite list_elem_of_In; simpl; intuition discriminate |]).
  constructor.
Qed.

(** *** A run as a whole *)

Lemma update_all_indicators_unfold w f store :
  load_data f = Ok store ->
  update_all_indicators w f =
    match fault w with
    | NoFault => {| returned := Ok (changed_keys w store);
                    written := [Truncated; Document (final_store w store)];
                    events := loop_events_of w store
                              ++ [Log INFO (MsgDone (length (changed_keys w store)))] |}
    | FailOpen => {| returned := Raise OSError; written := [];
                     events := loop_events_of w store |}
    | FailWrite => {| returned := Raise OSError; written := [Truncated];
                      events := loop_events_of w store |}
    end.
Proof.
  intros Hload. unfold update_all_indicators, final_store, changed_keys, loop_events_of.
  rewrite Hload.
  rewrite loop_data, loop_updated, loop_events by apply config_NoDup.
  cbn [ls_data ls_updated ls_events app].
  destruct (fault w); reflexivity.
Qed.

Lemma run_no_fault w f store :
  load_data f = Ok store -> fault w = NoFault ->
  update_all_indicators w f
  = {| returned := Ok (changed_keys w store);
       written := [Truncated; Document (final_store w store)];
       events := loop_events_of w store
                 ++ [Log INFO (MsgDone (length (changed_keys w store)))] |}.
Proof.
  intros Hload Hfault. rewrite (update_all_indicators_unfold w f store Hload).
  now rewrite Hfault.
Qed.

Lemma update_all_indicators_load_fails w f e :
  load_data f = Raise e ->
  update_all_indicators w f
  = {| returned := Raise e; written := []; events := [Log INFO MsgStart] |}.
Proof. intros Hload. unfold update_all_indicators. now rewrite Hload. Qed.

Lemma returned_ok w f changed :
  returned (update_all_indicators w f) = Ok changed ->
  exists store, load_data f = Ok store /\ fault w = NoFault.
Proof.
  destruct (load_data f) as [store|e] eqn:Hload.
  - rewrite (update_all_indicators_unfold w f store Hload).
    destruct (fault w); try discriminate. eauto.
  - rewrite (update_all_indicators_load_fails w f e Hload). discriminate.
Qed.

(** With the same answers the adapters return the same observations. *)
Lemma same_responses_fetch w1 w2 entry :
  same_responses w1 w2 -> In entry indicators_config ->
  fst (snd entry w2) = fst (snd entry w1).
Proof.
  intros (Hkey & Hbls & Hfred) Hin.
  assert (Hb : forall sid name unit,
             fst (fetch_bls_data w2 sid name unit) = fst (fetch_bls_data w1 sid name unit)).
  { intros. unfold fetch_bls_data. rewrite Hbls.
    destruct (bls_api w1 _) as [e|body]; [reflexivity |].
    destruct (bls_parse _ _ _ _); reflexivity. }
  assert (Hf : forall sid name unit,
             fst (fetch_fred_data w2 sid name unit) = fst (fetch_fred_data w1 sid name unit)).
  { intros. unfold fetch_fred_data. rewrite Hkey.
    destruct (String.eqb _ _); [reflexivity |]. rewrite Hfred.
    destruct (fred_api w1 _) as [e|body]; [reflexivity |].
    destruct (fred_parse _ _ _); reflexivity. }
  unfold indicators_config in Hin. simpl in Hin.
  repeat (destruct Hin as [<- | Hin]; [simpl; first [apply Hb | apply Hf] |]).
  destruct Hin.
Qed.

Lemma same_responses_contributes w1 w2 store entry :
  same_responses w1 w2 -> In entry indicators_config ->
  contributes w2 store entry = contributes w1 store entry.
Proof.
  intros Hsame Hin. unfold contributes.
  now rewrite (same_responses_fetch w1 w2 entry Hsame Hin).
Qed.

Lemma filter_none {A} (p : A -> bool) (xs : list A) :
  (forall x, In x xs -> p x = false) -> List.filter p xs = [].
Proof.
  induction xs as [|x xs IH]; intros Hp; simpl; [reflexivity |].
  rewrite (Hp x) by now left. apply IH. intros y Hy. apply Hp. now right.
Qed.

(** C1: merging a date that the series already holds changes nothing
    and reports no change; hence a second run over the same upstream
    answers returns an empty changed list and writes back the very
    store the first run left, [lastUpdate] included. *)
Theorem merge_idempotent_on_dates :
  (forall now key nd store s,
      store !! key = Some s -> In (nd_date nd) (dates s) ->
      merge now key nd store = Ok (store, false))
  /\
  (forall w1 w2 f0 changed,
      same_responses w1 w2 -> fault w2 = NoFault ->
      returned (update_all_indicators w1 f0) = Ok changed ->
      let f1 := file_after f0 (update_all_indicators w1 f0) in
      returned (update_all_indicators w2 f1) = Ok []
      /\ file_after f1 (update_all_indicators w2 f1) = f1).
Proof.
  split; [apply merge_known_date |].
  intros w1 w2 f0 changed Hsame Hfault2 Hret.
  destruct (returned_ok w1 f0 changed Hret) as (store0 & Hload & Hfault1).
  rewrite (run_no_fault w1 f0 store0 Hload Hfault1).
  unfold file_after. cbn [written returned List.last].
  set (store1 := final_store w1 store0).
  assert (Hidle : forall entry, In entry indicators_config ->
                                contributes w2 store1 entry = false).
  { intros entry Hin. rewrite (same_responses_contributes w1 w2) by assumption.
    now apply loop_records. }
  rewrite (run_no_fault w2 (Document store1) store1 eq_refl Hfault2).
  cbn [written returned List.last]. unfold changed_keys, final_store.
  rewrite (filter_none _ _ Hidle), (loop_idle _ _ _ Hidle). now split.
Qed.

(** C2: a merge and a whole run only append; every series of the store
    the run loaded is still there afterwards with the same name, unit
    and source, and its old observations form a prefix, hence a
    subsequence, of the new ones. *)
Theorem merging_is_append_only :
  (forall now key nd store store' changed,
      merge now key nd store = Ok (store', changed) ->
      forall k s, store !! k = Some s ->
        exists s', store' !! k = Some s'
          /\ s_name s' = s_name s /\ s_unit s' = s_unit s /\ s_source s' = s_source s
          /\ s_data s `prefix_of` s_data s' /\ s_data s `sublist_of` s_data s')
  /\
  (forall w f store changed,
      load_data f = Ok store ->
      returned (update_all_indicators w f) = Ok changed ->
      exists store', file_after f (update_all_indicators w f) = Document store'
        /\ forall k s, store !! k = Some s ->
             exists s', store' !! k = Some s'
               /\ s_name s' = s_name s /\ s_unit s' = s_unit s /\ s_source s' = s_source s
               /\ s_data s `prefix_of` s_data s' /\ s_data s `sublist_of` s_data s').
Proof.
  assert (Hshape : forall store store', append_only store store' ->
            forall k s, store !! k = Some s ->
              exists s', store' !! k = Some s'
                /\ s_name s' = s_name s /\ s_unit s' = s_unit s /\ s_source s' = s_source s
                /\ s_data s `prefix_of` s_data s' /\ s_data s `sublist_of` s_data s').
  { intros store store' Hap k s Hs.
    destruct (Hap k s Hs) as (s' & Hs' & Hn & Hu & Hc & Hp).
    exists s'. repeat split; try assumption.
    destruct Hp as [extra ->]. now apply sublist_inserts_r. }
  split.
  - intros now key nd store store' changed Hm.
    apply Hshape. eapply merge_append_only, Hm.
  - intros w f store changed Hload Hret.
    destruct (returned_ok w f changed Hret) as (store0 & Hload0 & Hfault).
    rewrite (run_no_fault w f store Hload Hfault).
    unfold file_after. cbn [written List.last].
    eexists. split; [reflexivity |]. apply Hshape, loop_append_only.
Qed.

(** *** Unique dates *)

Lemma NoDup_dates_append now nd s :
  NoDup (dates s) -> ~ In (nd_date nd) (dates s) ->
  NoDup (dates (append_observation now nd s)).
Proof.
  intros Hnd Hfresh. unfold dates. simpl. rewrite map_app. simpl.
  apply NoDup_app. split; [assumption |]. split.
  - intros x Hx Hin. apply list_elem_of_In in Hx, Hin.
    destruct Hin as [<- | []]. now apply Hfresh.
  - apply NoDup_singleton.
Qed.





(** *** What the adapters emit *)

Lemma fetch_bls_data_events w sid name unit :
  snd (fetch_bls_data w sid name unit) = [Post BLS_URL (bls_payload w sid)]
  \/ exists e, snd (fetch_bls_data w sid name unit)
               = [Post BLS_URL (bls_payload w sid); Log ERROR (MsgBlsFailed name e)].
Proof.
  unfold fetch_bls_data.
  destruct (bls_api w _) as [e|body]; [right; now exists e |].
  destruct (bls_parse _ _ _ _) as [r|e]; [now left | right; now exists e].
Qed.

Lemma fetch_bls_data_no_get w sid name unit :
  forallb (fun ev => negb (is_get ev)) (snd (fetch_bls_data w sid name unit)) = true.
Proof.
  destruct (fetch_bls_data_events w sid name unit) as [-> | [e ->]]; reflexivity.
Qed.

Lemma fetch_fred_data_no_key w sid name unit :
  default "" (FRED_API_KEY w) = "" ->
  fetch_fred_data w sid name unit = (None, [Log WARNING (MsgNoKey name)]).
Proof. intros Hkey. unfold fetch_fred_data. now rewrite Hkey. Qed.

Lemma fetch_fred_data_sends w sid name unit :
  default "" (FRED_API_KEY w) <> ""%string ->
  exists evs, snd (fetch_fred_data w sid name unit)
              = Get FRED_URL (fred_params (default "" (FRED_API_KEY w)) sid) :: evs.
Proof.
  intros Hkey. unfold fetch_fred_data.
  apply String.eqb_neq in Hkey. rewrite Hkey.
  destruct (fred_api w _) as [e|data]; [eexists; reflexivity |].
  destruct (fred_parse name unit data); eexists; reflexivity.
Qed.

Lemma entry_events_no_get w store entry :
  forallb (fun ev => negb (is_get ev)) (snd (snd entry w)) = true ->
  forallb (fun ev => negb (is_get ev)) (entry_events w store entry) = true.
Proof.
  intros Hev. unfold entry_events. rewrite forallb_app, Hev. simpl.
  destruct (fst (snd entry w)); [| reflexivity].
  now destruct (contributes w store entry).
Qed.

Lemma step_store_none w store entry :
  fst (snd entry w) = None -> step_store w store entry = store.
Proof. intros Hf. unfold step_store. now rewrite Hf. Qed.

Lemma final_store_no_key w store key :
  default "" (FRED_API_KEY w) = "" -> In key fred_keys ->
  final_store w store !! key = store !! key.
Proof.
  intros Hkey Hin. unfold final_store, indicators_config.
  cbn [fold_left].
  rewrite !(step_store_none w _ (_, fun w => fetch_fred_data w _ _ _))
    by (cbn [fst snd]; now rewrite fetch_fred_data_no_key).
  rewrite !step_store_other; [reflexivity | |];
    cbn [fst]; unfold fred_keys in Hin; simpl in Hin;
    intuition (subst; discriminate).
Qed.

(** C5: without a credential the second adapter answers at once, for
    every series identifier, with no observation and one warning: it
    logs no error and sends nothing, whereas with a credential its first
    act is the GET request.  The run then leaves the entries of its
    three keys as they were and issues no GET request at all. *)
Theorem credential_gating w :
  FRED_API_KEY w = None ->
  (forall sid name unit,
      fetch_fred_data w sid name unit = (None, [Log WARNING (MsgNoKey name)]))
  /\
  (forall w' sid name unit,
      default "" (FRED_API_KEY w') <> ""%string ->
      exists evs, snd (fetch_fred_data w' sid name unit)
                  = Get FRED_URL (fred_params (default "" (FRED_API_KEY w')) sid) :: evs)
  /\
  (forall f store,
      load_data f = Ok store ->
      (forall key, In key fred_keys -> final_store w store !! key = store !! key)
      /\ (forall store', In (Document store') (written (update_all_indicators w f)) ->
            forall key, In key fred_keys -> store' !! key = store !! key)
      /\ forallb (fun ev => negb (is_get ev)) (events (update_all_indicators w f)) = true).
Proof.
  intros Hnone.
  assert (Hkey : default "" (FRED_API_KEY w) = "") by now rewrite Hnone.
  split; [intros; now apply fetch_fred_data_no_key |].
  split; [intros w' sid name unit Hset; now apply fetch_fred_data_sends |].
  intros f store Hload. split; [| split].
  - intros key Hin. now apply final_store_no_key.
  - intros store' Hw key Hin.
    rewrite (update_all_indicators_unfold w f store Hload) in Hw.
    destruct (fault w); cbn [written] in Hw.
    + destruct Hw as [Hw | [Hw | []]]; [discriminate |].
      injection Hw as <-. now apply final_store_no_key.
    + destruct Hw.
    + destruct Hw as [Hw | []]. discriminate.
  - assert (Hloop : forallb (fun ev => negb (is_get ev)) (loop_events_of w store) = true).
    { unfold loop_events_of, indicators_config. cbn [flat_map forallb is_get negb andb].
      rewrite !forallb_app, !entry_events_no_get; try reflexivity;
        cbn [fst snd]; first [apply fetch_bls_data_no_get
                             | now rewrite fetch_fred_data_no_key]. }
    rewrite (update_all_indicators_unfold w f store Hload).
    destruct (fault w); cbn [events]; [| assumption | assumption].
    rewrite forallb_app, Hloop. reflexivity.
Qed.

Lemma changed_keys_spec w store key :
  In key (changed_keys w store) <->
  exists fetcher nd,
    In (key, fetcher) indicators_config /\ fst (fetcher w) = Some nd
    /\ ~ In (nd_date nd) (dates_of store key).
Proof.
  unfold changed_keys. rewrite in_map_iff. split.
  - intros ([k fetcher] & Hk & Hin). simpl in Hk. subst k.
    apply filter_In in Hin as [Hin Hc]. unfold contributes in Hc. simpl in Hc.
    destruct (fst (fetcher w)) as [nd|] eqn:Hf; [| discriminate].
    exists fetcher, nd. repeat split; try assumption.
    apply negb_true_iff in Hc. now apply contains_false.
  - intros (fetcher & nd & Hin & Hf & Hfresh).
    exists (key, fetcher). split; [reflexivity |].
    apply filter_In. split; [assumption |].
    unfold contributes. simpl. rewrite Hf.
    apply negb_true_iff. now apply contains_false.
Qed.

(** C6: whatever each adapter call yields, the loop goes through the
    five registry entries in order and never raises; a run that can
    write returns exactly the keys whose adapter succeeded with a date
    the loaded store did not hold, and the other keys are left out. *)
Theorem partial_failure_isolation w f store :
  load_data f = Ok store ->
  (exists tail, events (update_all_indicators w f)
                = Log INFO MsgStart
                  :: flat_map (entry_events w store) indicators_config ++ tail)
  /\ (fault w = NoFault ->
      returned (update_all_indicators w f) = Ok (changed_keys w store))
  /\ (fault w <> NoFault -> returned (update_all_indicators w f) = Raise OSError)
  /\ (forall key, In key (changed_keys w store) <->
        exists fetcher nd,
          In (key, fetcher) indicators_config /\ fst (fetcher w) = Some nd
          /\ ~ In (nd_date nd) (dates_of store key)).
Proof.
  intros Hload. rewrite (update_all_indicators_unfold w f store Hload).
  split; [| split; [| split]].
  - unfold loop_events_of.
    destruct (fault w); cbn [events]; eexists;
      first [rewrite <- app_comm_cons; reflexivity | now rewrite app_nil_r].
  - intros ->. reflexivity.
  - destruct (fault w); [congruence | reflexivity | reflexivity].
  - apply changed_keys_spec.
Qed.


(** *** The first adapter *)

Lemma filterM_year_ago latest y xs :
  py_int (bls_year latest) = Some y ->
  filterM (is_year_ago latest) xs = Ok (List.filter (matches_year_ago latest y) xs).
Proof.
  intros Hy. induction xs as [|x xs IH]; [reflexivity |].
  cbn [filterM List.filter]. rewrite IH.
  unfold is_year_ago, int_. rewrite Hy. cbn [bind ret].
  fold (matches_year_ago latest y x).
  now destruct (matches_year_ago latest y x).
Qed.

Lemma filter_head_find {A} (p : A -> bool) (xs : list A) :
  List.find p xs = match List.filter p xs with
                   | d :: _ => Some d
                   | [] => None
                   end.
Proof.
  induction xs as [|x xs IH]; [reflexivity |].
  simpl. now destruct (p x).
Qed.

Lemma inflation_rate_other sid series_data latest v :
  sid <> CPI_SERIES -> inflation_rate sid series_data latest v = Ok v.
Proof.
  intros Hne. unfold inflation_rate.
  apply String.eqb_neq in Hne. now rewrite Hne.
Qed.

Lemma inflation_rate_cpi series_data latest v y :
  py_int (bls_year latest) = Some y ->
  inflation_rate CPI_SERIES series_data latest v =
    match List.find (matches_year_ago latest y) series_data with
    | Some d =>
        let* year_ago_value := float_ (bls_value d) in
        let* ratio := Py.truediv (v - year_ago_value)%float year_ago_value in
        ret (ratio * 100)%float
    | None => Ok v
    end.
Proof.
  intros Hy. unfold inflation_rate. rewrite String.eqb_refl.
  rewrite (filterM_year_ago latest y series_data Hy). cbn [bind].
  rewrite filter_head_find.
  now destruct (List.filter (matches_year_ago latest y) series_data).
Qed.

Lemma fetch_bls_data_parsed w sid name unit data latest rest others v v' :
  bls_api w (bls_payload w sid) = HttpJson data ->
  status data = "REQUEST_SUCCEEDED"%string ->
  Results_series data = (latest :: rest) :: others ->
  py_float (bls_value latest) = Some v ->
  inflation_rate sid (latest :: rest) latest v = Ok v' ->
  fst (fetch_bls_data w sid name unit) = Some (bls_observation name unit latest v').
Proof.
  intros Hapi Hst Hser Hv Hrate. unfold fetch_bls_data, bls_parse.
  rewrite Hapi, Hst, String.eqb_refl, Hser. cbn [first bind].
  unfold float_ at 1. rewrite Hv. cbn [bind].
  rewrite Hrate. reflexivity.
Qed.

Lemma fetch_bls_data_raw w sid name unit :
  sid <> CPI_SERIES ->
  fst (fetch_bls_data w sid name unit) =
    match bls_api w (bls_payload w sid) with
    | HttpJson data =>
        if String.eqb (status data) "REQUEST_SUCCEEDED" then
          match Results_series data with
          | (latest :: _) :: _ =>
              match py_float (bls_value latest) with
              | Some v => Some (bls_observation name unit latest v)
              | None => None
              end
          | _ => None
          end
        else None
    | HttpRaise _ => None
    end.
Proof.
  intros Hne. unfold fetch_bls_data, bls_parse.
  destruct (bls_api w _) as [e|data]; [reflexivity |].
  destruct (String.eqb (status data) _); [| reflexivity].
  destruct (Results_series data) as [|[|latest rest] others]; try reflexivity.
  cbn [first bind]. unfold float_ at 1.
  destruct (py_float (bls_value latest)) as [v|]; [| reflexivity].
  cbn [bind]. now rewrite (inflation_rate_other _ _ _ _ Hne).
Qed.

Lemma fetch_bls_data_name_unit w sid name unit name' unit' :
  option_map nd_value (fst (fetch_bls_data w sid name unit))
  = option_map nd_value (fst (fetch_bls_data w sid name' unit'))
  /\ option_map nd_date (fst (fetch_bls_data w sid name unit))
     = option_map nd_date (fst (fetch_bls_data w sid name' unit')).
Proof.
  unfold fetch_bls_data, bls_parse.
  destruct (bls_api w _) as [e|data]; [now split |].
  destruct (String.eqb (status data) _); [| now split].
  destruct (first (Results_series data)) as [series0|e]; [| now split]. cbn [bind].
  destruct (first series0) as [latest|e]; [| now split]. cbn [bind].
  destruct (float_ (bls_value latest)) as [v|e]; [| now split]. cbn [bind].
  destruct (inflation_rate sid series0 latest v) as [v'|e]; now split.
Qed.

Set Warnings "-inexact-float".

(** C4: for the price-index series, when the answer holds the same
    period of the year before, the adapter returns
    [(latest - yearAgo) / yearAgo * 100] rounded to one decimal; when
    it holds none, the latest value rounded to one decimal; and 118.0
    against 110.0 gives 7.3. *)
Theorem index_adapter_derived_value w name unit data latest rest others y v :
  bls_api w (bls_payload w CPI_SERIES) = HttpJson data ->
  status data = "REQUEST_SUCCEEDED"%string ->
  Results_series data = (latest :: rest) :: others ->
  py_int (bls_year latest) = Some y ->
  py_float (bls_value latest) = Some v ->
  (forall d va,
      List.find (matches_year_ago latest y) (latest :: rest) = Some d ->
      py_float (bls_value d) = Some va ->
      PrimFloat.eqb va 0 = false ->
      option_map nd_value (fst (fetch_bls_data w CPI_SERIES name unit))
      = Some (Py.round1 ((v - va) / va * 100)))
  /\ (List.find (matches_year_ago latest y) (latest :: rest) = None ->
      option_map nd_value (fst (fetch_bls_data w CPI_SERIES name unit))
      = Some (Py.round1 v))
  /\ Py.round1 ((118.0 - 110.0) / 110.0 * 100) = 7.3%float.
Proof.
  intros Hapi Hst Hser Hy Hv. split; [| split].
  - intros d va Hfind Hva Hnz.
    rewrite (fetch_bls_data_parsed w CPI_SERIES name unit data latest rest others v
               ((v - va) / va * 100) Hapi Hst Hser Hv); [reflexivity |].
    rewrite (inflation_rate_cpi _ _ _ y Hy), Hfind.
    unfold float_. rewrite Hva. cbn [bind]. unfold Py.truediv. rewrite Hnz.
    reflexivity.
  - intros Hfind.
    rewrite (fetch_bls_data_parsed w CPI_SERIES name unit data latest rest others v v
               Hapi Hst Hser Hv); [reflexivity |].
    now rewrite (inflation_rate_cpi _ _ _ y Hy), Hfind.
  - vm_compute. reflexivity.
Qed.

Set Warnings "inexact-float".

(** C10: the year-over-year conversion hangs on the series identifier
    alone: it is applied for ["CUUR0000SA0"] and for no other
    identifier, whatever the display name and the unit are. *)
Theorem transform_selected_by_series_id :
  CPI_SERIES = "CUUR0000SA0"%string
  /\
  (forall sid series_data latest v,
      sid <> CPI_SERIES -> inflation_rate sid series_data latest v = Ok v)
  /\
  (forall series_data latest v y d va,
      py_int (bls_year latest) = Some y ->
      List.find (matches_year_ago latest y) series_data = Some d ->
      py_float (bls_value d) = Some va ->
      PrimFloat.eqb va 0 = false ->
      inflation_rate CPI_SERIES series_data latest v = Ok ((v - va) / va * 100)%float)
  /\
  (forall w sid name unit,
      sid <> CPI_SERIES ->
      fst (fetch_bls_data w sid name unit) =
        match bls_api w (bls_payload w sid) with
        | HttpJson data =>
            if String.eqb (status data) "REQUEST_SUCCEEDED" then
              match Results_series data with
              | (latest :: _) :: _ =>
                  match py_float (bls_value latest) with
                  | Some v => Some (bls_observation name unit latest v)
                  | None => None
                  end
              | _ => None
              end
            else None
        | HttpRaise _ => None
        end)
  /\
  (forall w sid name unit name' unit',
      option_map nd_value (fst (fetch_bls_data w sid name unit))
      = option_map nd_value (fst (fetch_bls_data w sid name' unit'))
      /\ option_map nd_date (fst (fetch_bls_data w sid name unit))
         = option_map nd_date (fst (fetch_bls_data w sid name' unit'))).
Proof.
  split; [reflexivity |].
  split; [exact inflation_rate_other |].
  split.
  - intros series_data latest v y d va Hy Hfind Hva Hnz.
    rewrite (inflation_rate_cpi _ _ _ y Hy), Hfind.
    unfold float_. rewrite Hva. cbn [bind]. unfold Py.truediv. now rewrite Hnz.
  - split; [exact fetch_bls_data_raw | exact fetch_bls_data_name_unit].
Qed.

(** *** The second adapter *)

Lemma fetch_fred_data_keyed w sid name unit :
  default "" (FRED_API_KEY w) <> ""%string ->
  fst (fetch_fred_data w sid name unit) =
    match fred_api w (fred_params (default "" (FRED_API_KEY w)) sid) with
    | HttpJson data =>
        match fred_parse name unit data with
        | Ok r => r
        | Raise _ => None
        end
    | HttpRaise _ => None
    end.
Proof.
  intros Hkey. unfold fetch_fred_data.
  apply String.eqb_neq in Hkey. rewrite Hkey.
  destruct (fred_api w _) as [e|data]; [reflexivity |].
  now destruct (fred_parse name unit data).
Qed.

(** C9: a missing credential, a failed exchange, a value that does not
    parse and an answer without observations all make the second
    adapter return the same thing, no observation. *)
Theorem fred_outcomes_indistinguishable w sid name unit :
  (FRED_API_KEY w = None -> fst (fetch_fred_data w sid name unit) = None)
  /\
  (forall e,
      default "" (FRED_API_KEY w) <> ""%string ->
      fred_api w (fred_params (default "" (FRED_API_KEY w)) sid) = HttpRaise e ->
      fst (fetch_fred_data w sid name unit) = None)
  /\
  (forall latest rest,
      default "" (FRED_API_KEY w) <> ""%string ->
      fred_api w (fred_params (default "" (FRED_API_KEY w)) sid)
      = HttpJson {| observations := Some (latest :: rest) |} ->
      py_float (fred_value latest) = None ->
      fst (fetch_fred_data w sid name unit) = None)
  /\
  (forall data,
      default "" (FRED_API_KEY w) <> ""%string ->
      fred_api w (fred_params (default "" (FRED_API_KEY w)) sid) = HttpJson data ->
      observations data = None \/ observations data = Some [] ->
      fst (fetch_fred_data w sid name unit) = None).
Proof.
  split; [| split; [| split]].
  - intros Hnone. rewrite fetch_fred_data_no_key; [reflexivity | now rewrite Hnone].
  - intros e Hkey Hapi. now rewrite (fetch_fred_data_keyed _ _ _ _ Hkey), Hapi.
  - intros latest rest Hkey Hapi Hv.
    rewrite (fetch_fred_data_keyed _ _ _ _ Hkey), Hapi.
    unfold fred_parse, float_. cbn [observations]. now rewrite Hv.
  - intros data Hkey Hapi Hobs.
    rewrite (fetch_fred_data_keyed _ _ _ _ Hkey), Hapi.
    unfold fred_parse. now destruct Hobs as [-> | ->].
Qed.

(** *** Persistence and the trigger *)

(** C3, as the code has it: [save_data] writes into the visible file
    itself.  Opening it empties it, the dump fills it; a reader in
    between finds an incomplete file and [load_data] raises.  Only
    before the open and after the dump does a reader get the complete
    store, the one before the run and the one after it. *)
Theorem save_data_replaces_in_place :
  (forall data, save_data NoFault data = (Ok tt, [Truncated; Document data]))
  /\ load_data Truncated = Raise JSONDecodeError
  /\ (forall w f store,
        load_data f = Ok store -> fault w = NoFault ->
        written (update_all_indicators w f)
        = [Truncated; Document (final_store w store)]
        /\ load_data (file_after f (update_all_indicators w f))
           = Ok (final_store w store)).
Proof.
  split; [reflexivity |]. split; [reflexivity |].
  intros w f store Hload Hfault. rewrite (run_no_fault w f store Hload Hfault).
  split; reflexivity.
Qed.

Lemma manual_update_reply w f :
  fst (manual_update w f) =
    match returned (update_all_indicators w f) with
    | Ok updated => Reply200 true (length updated) updated
    | Raise e => Reply500 false e
    end.
Proof. unfold manual_update. now destruct (returned _). Qed.

Lemma returned_cases w f :
  returned (update_all_indicators w f) =
    match load_data f with
    | Raise e => Raise e
    | Ok store =>
        match fault w with
        | NoFault => Ok (changed_keys w store)
        | _ => Raise OSError
        end
    end.
Proof.
  destruct (load_data f) as [store|e] eqn:Hload.
  - rewrite (update_all_indicators_unfold w f store Hload). now destruct (fault w).
  - now rewrite (update_all_indicators_load_fails w f e Hload).
Qed.

(** C7: when the final write fails the exception leaves
    [update_all_indicators] and the trigger answers with
    [success = false] and the error; what the adapters do never decides
    between the two replies: with a readable file and a working write
    the trigger answers with success in every world, and the reply is
    a failure exactly when reading or writing the file raised. *)
Theorem persistence_failure_surfaces :
  (forall w f store,
      load_data f = Ok store -> fault w <> NoFault ->
      returned (update_all_indicators w f) = Raise OSError
      /\ fst (manual_update w f) = Reply500 false OSError)
  /\
  (forall w f store,
      load_data f = Ok store -> fault w = NoFault ->
      fst (manual_update w f)
      = Reply200 true (length (changed_keys w store)) (changed_keys w store))
  /\
  (forall w w' f,
      fault w = fault w' ->
      is_failure (fst (manual_update w f)) = is_failure (fst (manual_update w' f)))
  /\
  (forall w f,
      is_failure (fst (manual_update w f)) = true <->
      (exists e, load_data f = Raise e) \/ fault w <> NoFault).
Proof.
  split; [| split; [| split]].
  - intros w f store Hload Hfault.
    rewrite manual_update_reply, returned_cases, Hload.
    destruct (fault w); [congruence | now split | now split].
  - intros w f store Hload Hfault.
    now rewrite manual_update_reply, returned_cases, Hload, Hfault.
  - intros w w' f Hfault.
    rewrite !manual_update_reply, !returned_cases, Hfault.
    destruct (load_data f); [| reflexivity]. now destruct (fault w').
  - intros w f. rewrite manual_update_reply, returned_cases.
    destruct (load_data f) as [store|e]; [destruct (fault w) |]; cbn [is_failure];
      split; try discriminate; try tauto; try (intros _; now right).
    + intros [[e He] | Hne]; [discriminate | congruence].
    + intros _. left. now exists e.
Qed.

End Properties.

(** ** Further properties of the code *)

Section Extras.

Context `{!Builtins}.

Local Open Scope list_scope.

Implicit Types (w : World) (store : Store) (key : string)
  (nd : NormalizedObservation) (s : IndicatorSeries)
  (entry : string * (World -> option NormalizedObservation * list event)).

(** *** What a run does to each key *)

Lemma step_store_commute_lookup w store entry entry' :
  fst entry' <> fst entry ->
  step_store w (step_store w store entry) entry' !! fst entry'
  = step_store w store entry' !! fst entry'.
Proof.
  intros Hne. unfold step_store at 1 3.
  rewrite (contributes_other w store entry entry' Hne).
  destruct (fst (snd entry' w)) as [nd|]; [| now apply step_store_other].
  destruct (contributes w store entry'); [| now apply step_store_other].
  rewrite !lookup_insert_eq. now rewrite (step_store_other w store entry _ Hne).
Qed.

Lemma loop_lookup_entry w cfg store entry :
  NoDup (map fst cfg) -> In entry cfg ->
  fold_left (step_store w) cfg store !! fst entry = step_store w store entry !! fst entry.
Proof.
  revert store. induction cfg as [|e cfg IH]; intros store Hnd Hin; [destruct Hin |].
  cbn [map] in Hnd. apply NoDup_cons in Hnd as [Hfresh Hnd].
  cbn [fold_left]. destruct Hin as [-> | Hin].
  - apply loop_other. intros Hk. apply Hfresh. now apply list_elem_of_In.
  - rewrite IH by assumption. apply step_store_commute_lookup.
    intros Heq. apply Hfresh. rewrite <- Heq. apply list_elem_of_In. now apply in_map.
Qed.

Lemma final_store_changed w store key :
  In key (changed_keys w store) ->
  exists fetcher nd,
    In (key, fetcher) indicators_config /\ fst (fetcher w) = Some nd
    /\ ~ In (nd_date nd) (dates_of store key)
    /\ final_store w store !! key
       = Some (append_observation (iso_now w key) nd
                 (default (new_series nd) (store !! key))).
Proof.
  intros Hin. apply changed_keys_spec in Hin as (fetcher & nd & Hcfg & Hf & Hfresh).
  exists fetcher, nd. repeat split; try assumption.
  unfold final_store.
  pose proof (loop_lookup_entry w indicators_config store (key, fetcher)
                config_NoDup Hcfg) as Hlook.
  cbn [fst] in Hlook. rewrite Hlook.
  unfold step_store. cbn [fst snd]. rewrite Hf.
  assert (Hc : contributes w store (key, fetcher) = true).
  { unfold contributes. cbn [fst snd]. rewrite Hf.
    apply negb_true_iff. now apply contains_false. }
  rewrite Hc. apply lookup_insert_eq.
Qed.

Lemma final_store_unchanged w store key :
  ~ In key (changed_keys w store) -> final_store w store !! key = store !! key.
Proof.
  intros Hnot. unfold final_store.
  destruct (in_dec string_dec key (map fst indicators_config)) as [Hreg | Hreg].
  - apply in_map_iff in Hreg as (entry & <- & Hcfg).
    rewrite (loop_lookup_entry w indicators_config store entry config_NoDup Hcfg).
    destruct (contributes w store entry) eqn:Hc.
    + exfalso. apply Hnot. unfold changed_keys. apply in_map.
      apply filter_In. now split.
    + now rewrite step_store_idle.
  - now apply loop_other.
Qed.

Lemma returned_changed w f store changed :
  load_data f = Ok store ->
  returned (update_all_indicators w f) = Ok changed ->
  changed = changed_keys w store.
Proof.
  intros Hload Hret.
  destruct (returned_ok w f changed Hret) as (store0 & Hload0 & Hfault).
  rewrite (run_no_fault w f store Hload Hfault) in Hret.
  cbn [returned] in Hret. now injection Hret as <-.
Qed.

Lemma run_effect_store w f store changed :
  load_data f = Ok store ->
  returned (update_all_indicators w f) = Ok changed ->
  file_after f (update_all_indicators w f) = Document (final_store w store)
  /\ written (update_all_indicators w f) = [Truncated; Document (final_store w store)].
Proof.
  intros Hload Hret.
  destruct (returned_ok w f changed Hret) as (store0 & Hload0 & Hfault).
  rewrite (run_no_fault w f store Hload Hfault). now split.
Qed.

(** X1: what a run that returns does to the store, key by key.  A key of
    the returned list gets the fetched observation appended at the end
    of its series (a new series if the key was absent) and [lastUpdate]
    set to the time of the append; every other key, in the registry or
    not, keeps exactly the entry it had, absent ones stay absent. *)
Theorem run_effect_per_key w f store changed :
  load_data f = Ok store ->
  returned (update_all_indicators w f) = Ok changed ->
  exists store',
    file_after f (update_all_indicators w f) = Document store'
    /\ (forall key, In key changed ->
          exists fetcher nd,
            In (key, fetcher) indicators_config /\ fst (fetcher w) = Some nd
            /\ ~ In (nd_date nd) (dates_of store key)
            /\ store' !! key
               = Some {| s_name := s_name (default (new_series nd) (store !! key));
                         s_unit := s_unit (default (new_series nd) (store !! key));
                         s_source := s_source (default (new_series nd) (store !! key));
                         s_data := s_data (default (new_series nd) (store !! key))
                                   ++ [ {| o_month := Py.take 7 (nd_date nd);
                                           o_value := nd_value nd;
                                           o_date := nd_date nd |} ];
                         s_lastUpdate := Some (iso_now w key) |})
    /\ (forall key, ~ In key changed -> store' !! key = store !! key).
Proof.
  intros Hload Hret.
  destruct (returned_ok w f changed Hret) as (store0 & Hload0 & Hfault).
  rewrite Hload in Hload0. injection Hload0 as <-.
  rewrite (run_no_fault w f store Hload Hfault) in Hret |- *.
  cbn [returned] in Hret. injection Hret as <-.
  unfold file_after. cbn [written List.last].
  exists (final_store w store). split; [reflexivity |]. split.
  - intros key Hin. apply (final_store_changed w store key Hin).
  - apply final_store_unchanged.
Qed.

Lemma filter_sublist {A} (p : A -> bool) (xs : list A) :
  List.filter p xs `sublist_of` xs.
Proof.
  induction xs as [|x xs IH]; [constructor |].
  cbn [List.filter]. destruct (p x); now constructor.
Qed.

Lemma changed_keys_sublist w store : changed_keys w store `sublist_of` registry_keys.
Proof.
  unfold changed_keys, registry_keys.
  change (map fst (List.filter (contributes w store) indicators_config))
    with (fst <$> List.filter (contributes w store) indicators_config).
  change (map fst indicators_config) with (fst <$> indicators_config).
  apply fmap_sublist, filter_sublist.
Qed.

(** X2: the list a run returns names registry keys only, in the order
    of the registry and each at most once. *)
Theorem returned_keys_ordered w f changed :
  returned (update_all_indicators w f) = Ok changed ->
  changed `sublist_of` ["cpi"; "unemployment"; "fed_rate"; "ism"; "consumer_confidence"]%string
  /\ NoDup changed.
Proof.
  intros Hret.
  destruct (returned_ok w f changed Hret) as (store & Hload & Hfault).
  rewrite (run_no_fault w f store Hload Hfault) in Hret.
  cbn [returned] in Hret. injection Hret as <-.
  pose proof (changed_keys_sublist w store) as Hsub.
  split; [exact Hsub |].
  eapply sublist_NoDup; [apply config_NoDup | exact Hsub].
Qed.

(** X3: the returned list is empty exactly when the store the run
    writes is the store it loaded; a run that changed nothing still
    rewrites the file, with the same content. *)
Theorem nothing_changed_iff_same_store w f store changed :
  load_data f = Ok store ->
  returned (update_all_indicators w f) = Ok changed ->
  written (update_all_indicators w f) <> []
  /\ (changed = [] <-> file_after f (update_all_indicators w f) = Document store).
Proof.
  intros Hload Hret.
  destruct (run_effect_store w f store changed Hload Hret) as (Hafter & Hwritten).
  split; [now rewrite Hwritten |].
  rewrite Hafter. split.
  - intros ->. f_equal. apply map_eq. intros key.
    apply final_store_unchanged. rewrite <- (returned_changed w f store [] Hload Hret).
    intros [].
  - intros [= Hsame]. destruct changed as [|key rest]; [reflexivity |]. exfalso.
    assert (Hin : In key (changed_keys w store)).
    { rewrite <- (returned_changed w f store _ Hload Hret). now left. }
    destruct (final_store_changed w store key Hin) as (fetcher & nd & _ & _ & _ & Hlook).
    rewrite Hsame in Hlook.
    destruct (store !! key) as [s|] eqn:Hs; [| discriminate].
    injection Hlook as Heq. apply (f_equal s_data) in Heq. cbn in Heq.
    apply (f_equal (@List.length _)) in Heq. rewrite length_app in Heq.
    cbn in Heq. lia.
Qed.

(** *** The shape of the stores the program writes *)

Lemma fetch_bls_data_source w sid name unit nd :
  fst (fetch_bls_data w sid name unit) = Some nd -> nd_source nd = "BLS"%string.
Proof.
  unfold fetch_bls_data, bls_parse.
  destruct (bls_api w _) as [e|data]; [discriminate |].
  destruct (String.eqb (status data) _); [| discriminate].
  destruct (first (Results_series data)) as [series0|e]; [| discriminate]. cbn [bind].
  destruct (first series0) as [latest|e]; [| discriminate]. cbn [bind].
  destruct (float_ (bls_value latest)) as [v|e]; [| discriminate]. cbn [bind].
  destruct (inflation_rate sid series0 latest v) as [v'|e]; [| discriminate].
  cbn. now intros [= <-].
Qed.

Lemma fetch_fred_data_source w sid name unit nd :
  fst (fetch_fred_data w sid name unit) = Some nd -> nd_source nd = "FRED"%string.
Proof.
  unfold fetch_fred_data.
  destruct (String.eqb _ _); [discriminate |].
  destruct (fred_api w _) as [e|[obs]]; [discriminate |].
  unfold fred_parse. cbn [observations].
  destruct obs as [[|latest rest]|]; try discriminate.
  destruct (float_ (fred_value latest)) as [v|e]; [| discriminate].
  cbn. now intros [= <-].
Qed.

Lemma config_source w entry nd :
  In entry indicators_config -> fst (snd entry w) = Some nd ->
  nd_source nd = "BLS"%string \/ nd_source nd = "FRED"%string.
Proof.
  intros Hin. unfold indicators_config in Hin.
  repeat (destruct Hin as [<- | Hin];
          [cbn [fst snd]; intros Hf;
           first [left; now apply (fetch_bls_data_source _ _ _ _ _ Hf)
                 | right; now apply (fetch_fred_data_source _ _ _ _ _ Hf)] |]).
  destruct Hin.
Qed.

Lemma series_ok_append now key nd s :
  In key registry_keys ->
  NoDup (dates s) ->
  Forall (fun o => o_month o = Py.take 7 (o_date o)) (s_data s) ->
  s_source s = "BLS"%string \/ s_source s = "FRED"%string ->
  ~ In (nd_date nd) (dates s) ->
  series_ok key (append_observation now nd s).
Proof.
  intros Hkey Hnd Hmonth Hsrc Hfresh. unfold series_ok. cbn [append_observation s_data
    s_lastUpdate s_source].
  split; [assumption |]. split; [now destruct (s_data s) |].
  split; [discriminate |]. split; [now apply NoDup_dates_append |].
  split; [| assumption].
  apply Forall_app. split; [assumption |]. now constructor.
Qed.

Lemma step_store_ok w store entry :
  In entry indicators_config -> store_ok store -> store_ok (step_store w store entry).
Proof.
  intros Hcfg Hok. unfold step_store.
  destruct (fst (snd entry w)) as [nd|] eqn:Hf; [| assumption].
  destruct (contributes w store entry) eqn:Hc; [| assumption].
  intros key s. destruct (decide (fst entry = key)) as [<- | Hne].
  - rewrite lookup_insert_eq. intros [= <-].
    assert (Hkey : In (fst entry) registry_keys) by now apply in_map.
    assert (Hfresh : ~ In (nd_date nd) (dates_of store (fst entry))).
    { unfold contributes in Hc. rewrite Hf in Hc.
      apply negb_true_iff in Hc. now apply contains_false. }
    unfold dates_of in Hfresh.
    destruct (store !! fst entry) as [s0|] eqn:Hs0; cbn [default].
    + destruct (Hok _ _ Hs0) as (_ & _ & _ & Hnd & Hmonth & Hsrc).
      now apply series_ok_append.
    + apply series_ok_append; try assumption.
      * apply NoDup_nil_2.
      * constructor.
      * cbn. now apply (config_source w entry nd).
  - rewrite lookup_insert_ne by assumption. apply Hok.
Qed.

Lemma loop_store_ok w cfg store :
  (forall entry, In entry cfg -> In entry indicators_config) ->
  store_ok store -> store_ok (fold_left (step_store w) cfg store).
Proof.
  revert store. induction cfg as [|entry cfg IH]; intros store Hsub Hok; [assumption |].
  cbn [fold_left]. apply IH.
  - intros e He. apply Hsub. now right.
  - apply step_store_ok; [apply Hsub; now left | assumption].
Qed.

Lemma file_after_cases w f :
  file_after f (update_all_indicators w f) =
    match load_data f with
    | Raise _ => f
    | Ok store =>
        match fault w with
        | NoFault => Document (final_store w store)
        | FailOpen => f
        | FailWrite => Truncated
        end
    end.
Proof.
  destruct (load_data f) as [store|e] eqn:Hload.
  - rewrite (update_all_indicators_unfold w f store Hload). now destruct (fault w).
  - now rewrite (update_all_indicators_load_fails w f e Hload).
Qed.

Lemma run_file_ok w f : file_ok f -> file_ok (file_after f (update_all_indicators w f)).
Proof.
  intros Hok. rewrite file_after_cases.
  destruct (load_data f) as [store|e] eqn:Hload; [| assumption].
  destruct (fault w); [| assumption | exact I].
  cbn [file_ok]. apply loop_store_ok; [tauto |].
  destruct f; cbn in Hload; try discriminate; injection Hload as <-.
  - intros key s. rewrite lookup_empty. discriminate.
  - exact Hok.
Qed.

(** X4: the stores the program writes are well formed, run after run.
    Starting with no file, or with a file whose series are in order, any
    number of scheduled runs in any worlds leaves a file whose every
    series sits under a registry key, holds at least one observation and
    a [lastUpdate], has pairwise different dates, has each month equal to
    the first seven characters of its date, and names one of the two
    providers as its source. *)
Theorem written_stores_well_formed :
  (forall ws f, file_ok f -> file_ok (runs ws f))
  /\ (forall ws, file_ok (runs ws NoFile)).
Proof.
  assert (Hruns : forall ws f, file_ok f -> file_ok (runs ws f)).
  { induction ws as [|w ws IH]; intros f Hok; [assumption |].
    cbn [runs]. apply IH. now apply run_file_ok. }
  split; [exact Hruns |]. intros ws. apply Hruns. exact I.
Qed.

(** *** When the file system fails *)

Lemma runs_truncated ws : runs ws Truncated = Truncated.
Proof.
  induction ws as [|w ws IH]; [reflexivity |].
  cbn [runs]. now rewrite file_after_cases.
Qed.

(** X5: a write that fails after the file has been opened leaves the
    file cut short, and the stored history is gone: from then on every
    run stops at [load_data] with a decoding error, sends nothing and
    writes nothing, every trigger answers with that error, and no number
    of later runs brings the file back.  A write that fails before the
    open leaves the file as it was. *)
Theorem failed_write_loses_the_store :
  (forall w f store,
      load_data f = Ok store -> fault w = FailWrite ->
      file_after f (update_all_indicators w f) = Truncated)
  /\ (forall w f store,
        load_data f = Ok store -> fault w = FailOpen ->
        file_after f (update_all_indicators w f) = f)
  /\ (forall w,
        update_all_indicators w Truncated
        = {| returned := Raise JSONDecodeError; written := [];
             events := [Log INFO MsgStart] |}
        /\ fst (manual_update w Truncated) = Reply500 false JSONDecodeError)
  /\ (forall ws, runs ws Truncated = Truncated).
Proof.
  split; [| split; [| split]].
  - intros w f store Hload Hfault. now rewrite file_after_cases, Hload, Hfault.
  - intros w f store Hload Hfault. now rewrite file_after_cases, Hload, Hfault.
  - intros w.
    rewrite manual_update_reply,
      (update_all_indicators_load_fails w Truncated JSONDecodeError eq_refl).
    now split.
  - apply runs_truncated.
Qed.

(** *** The requests of a run *)

Lemma fetch_bls_data_requests w sid name unit :
  List.filter is_request (snd (fetch_bls_data w sid name unit))
  = [Post BLS_URL (bls_payload w sid)].
Proof.
  destruct (fetch_bls_data_events w sid name unit) as [-> | [e ->]]; reflexivity.
Qed.

Lemma fetch_fred_data_requests w sid name unit :
  List.filter is_request (snd (fetch_fred_data w sid name unit))
  = if String.eqb (default "" (FRED_API_KEY w)) ""
    then []
    else [Get FRED_URL (fred_params (default "" (FRED_API_KEY w)) sid)].
Proof.
  unfold fetch_fred_data.
  destruct (String.eqb _ _); [reflexivity |].
  destruct (fred_api w _) as [e|data]; [reflexivity |].
  now destruct (fred_parse name unit data).
Qed.

Lemma entry_events_requests w store entry :
  List.filter is_request (entry_events w store entry)
  = List.filter is_request (snd (snd entry w)).
Proof.
  unfold entry_events. rewrite List.filter_app.
  destruct (fst (snd entry w)); [| apply app_nil_r].
  destruct (contributes w store entry); apply app_nil_r.
Qed.

Lemma loop_requests w store :
  List.filter is_request (loop_events_of w store)
  = [Post BLS_URL (bls_payload w "CUUR0000SA0");
     Post BLS_URL (bls_payload w "LNS14000000")]
    ++ (if String.eqb (default "" (FRED_API_KEY w)) ""
        then []
        else [Get FRED_URL (fred_params (default "" (FRED_API_KEY w)) "DFEDTARU");
              Get FRED_URL (fred_params (default "" (FRED_API_KEY w)) "NAPM");
              Get FRED_URL (fred_params (default "" (FRED_API_KEY w)) "UMCSENT")]).
Proof.
  unfold loop_events_of, indicators_config.
  cbn [flat_map List.filter is_request].
  rewrite !List.filter_app, !entry_events_requests. cbn [fst snd].
  rewrite !fetch_bls_data_requests, !fetch_fred_data_requests.
  now destruct (String.eqb _ _).
Qed.

(** X6: a run that gets past [load_data] sends one request per
    indicator and never a second one, whatever the answers are: the two
    POSTs for the price index and the unemployment rate, then, if a
    credential is set, the three GETs, in the order of the registry. *)
Theorem one_request_per_indicator w f store :
  load_data f = Ok store ->
  List.filter is_request (events (update_all_indicators w f))
  = [Post BLS_URL (bls_payload w "CUUR0000SA0");
     Post BLS_URL (bls_payload w "LNS14000000")]
    ++ (if String.eqb (default "" (FRED_API_KEY w)) ""
        then []
        else [Get FRED_URL (fred_params (default "" (FRED_API_KEY w)) "DFEDTARU");
              Get FRED_URL (fred_params (default "" (FRED_API_KEY w)) "NAPM");
              Get FRED_URL (fred_params (default "" (FRED_API_KEY w)) "UMCSENT")]).
Proof.
  intros Hload. rewrite (update_all_indicators_unfold w f store Hload).
  destruct (fault w); cbn [events]; try apply loop_requests.
  rewrite List.filter_app, loop_requests. cbn [List.filter is_request]. apply app_nil_r.
Qed.

(** *** How the first adapter fails *)

(** X7: the four ways the first adapter comes back empty-handed.  A
    status other than ['REQUEST_SUCCEEDED'] is dropped without a trace in
    the log; a failed exchange, an answer without series or without
    data, and a latest value that [float] rejects are each logged as an
    error with the exception that was raised. *)
Theorem bls_failure_modes w sid name unit :
  (forall data,
      bls_api w (bls_payload w sid) = HttpJson data ->
      status data <> "REQUEST_SUCCEEDED"%string ->
      fetch_bls_data w sid name unit = (None, [Post BLS_URL (bls_payload w sid)]))
  /\
  (forall e,
      bls_api w (bls_payload w sid) = HttpRaise e ->
      fetch_bls_data w sid name unit
      = (None, [Post BLS_URL (bls_payload w sid); Log ERROR (MsgBlsFailed name e)]))
  /\
  (forall data,
      bls_api w (bls_payload w sid) = HttpJson data ->
      status data = "REQUEST_SUCCEEDED"%string ->
      Results_series data = [] \/ (exists others, Results_series data = [] :: others) ->
      fetch_bls_data w sid name unit
      = (None, [Post BLS_URL (bls_payload w sid);
                Log ERROR (MsgBlsFailed name IndexError)]))
  /\
  (forall data latest rest others,
      bls_api w (bls_payload w sid) = HttpJson data ->
      status data = "REQUEST_SUCCEEDED"%string ->
      Results_series data = (latest :: rest) :: others ->
      py_float (bls_value latest) = None ->
      fetch_bls_data w sid name unit
      = (None, [Post BLS_URL (bls_payload w sid);
                Log ERROR (MsgBlsFailed name ValueError)])).
Proof.
  split; [| split; [| split]].
  - intros data Hapi Hst. unfold fetch_bls_data, bls_parse. rewrite Hapi.
    apply String.eqb_neq in Hst. now rewrite Hst.
  - intros e Hapi. unfold fetch_bls_data. now rewrite Hapi.
  - intros data Hapi Hst Hempty. unfold fetch_bls_data, bls_parse.
    rewrite Hapi, Hst, String.eqb_refl.
    destruct Hempty as [-> | [others ->]]; reflexivity.
  - intros data latest rest others Hapi Hst Hser Hv. unfold fetch_bls_data, bls_parse.
    rewrite Hapi, Hst, String.eqb_refl, Hser. cbn [first bind].
    unfold float_ at 1. now rewrite Hv.
Qed.

Lemma fetch_bls_data_rate_fails w sid name unit data latest rest others v e :
  bls_api w (bls_payload w sid) = HttpJson data ->
  status data = "REQUEST_SUCCEEDED"%string ->
  Results_series data = (latest :: rest) :: others ->
  py_float (bls_value latest) = Some v ->
  inflation_rate sid (latest :: rest) latest v = Raise e ->
  fetch_bls_data w sid name unit
  = (None, [Post BLS_URL (bls_payload w sid); Log ERROR (MsgBlsFailed name e)]).
Proof.
  intros Hapi Hst Hser Hv Hrate. unfold fetch_bls_data, bls_parse.
  rewrite Hapi, Hst, String.eqb_refl, Hser. cbn [first bind].
  unfold float_ at 1. rewrite Hv. cbn [bind]. now rewrite Hrate.
Qed.

Lemma filterM_year_fails latest d rest :
  py_int (bls_year latest) = None ->
  filterM (is_year_ago latest) (d :: rest) = Raise ValueError.
Proof.
  intros Hy. cbn [filterM]. unfold is_year_ago at 1, int_. now rewrite Hy.
Qed.

(** X8: three failures that only the price-index series can meet, on an
    answer that any other series turns into an observation.  A year that
    [int] rejects, a year-ago value that [float] rejects and a year-ago
    value of zero each make the call for ["CUUR0000SA0"] return nothing
    and log the error; the same answer under another identifier yields
    the latest value, rounded. *)
Theorem cpi_only_failure_modes w name unit data latest rest others v :
  bls_api w (bls_payload w CPI_SERIES) = HttpJson data ->
  status data = "REQUEST_SUCCEEDED"%string ->
  Results_series data = (latest :: rest) :: others ->
  py_float (bls_value latest) = Some v ->
  (py_int (bls_year latest) = None ->
   fetch_bls_data w CPI_SERIES name unit
   = (None, [Post BLS_URL (bls_payload w CPI_SERIES);
             Log ERROR (MsgBlsFailed name ValueError)]))
  /\
  (forall y d,
      py_int (bls_year latest) = Some y ->
      List.find (matches_year_ago latest y) (latest :: rest) = Some d ->
      py_float (bls_value d) = None ->
      fetch_bls_data w CPI_SERIES name unit
      = (None, [Post BLS_URL (bls_payload w CPI_SERIES);
                Log ERROR (MsgBlsFailed name ValueError)]))
  /\
  (forall y d va,
      py_int (bls_year latest) = Some y ->
      List.find (matches_year_ago latest y) (latest :: rest) = Some d ->
      py_float (bls_value d) = Some va ->
      PrimFloat.eqb va 0 = true ->
      fetch_bls_data w CPI_SERIES name unit
      = (None, [Post BLS_URL (bls_payload w CPI_SERIES);
                Log ERROR (MsgBlsFailed name ZeroDivisionError)]))
  /\
  (forall w' sid,
      sid <> CPI_SERIES ->
      bls_api w' (bls_payload w' sid) = HttpJson data ->
      fst (fetch_bls_data w' sid name unit) = Some (bls_observation name unit latest v)).
Proof.
  intros Hapi Hst Hser Hv. split; [| split; [| split]].
  - intros Hy.
    apply (fetch_bls_data_rate_fails w CPI_SERIES name unit data latest rest others v
             ValueError Hapi Hst Hser Hv).
    unfold inflation_rate. rewrite String.eqb_refl.
    now rewrite (filterM_year_fails latest latest rest Hy).
  - intros y d Hy Hfind Hd.
    apply (fetch_bls_data_rate_fails w CPI_SERIES name unit data latest rest others v
             ValueError Hapi Hst Hser Hv).
    rewrite (inflation_rate_cpi _ _ _ y Hy), Hfind. unfold float_. now rewrite Hd.
  - intros y d va Hy Hfind Hd Hzero.
    apply (fetch_bls_data_rate_fails w CPI_SERIES name unit data latest rest others v
             ZeroDivisionError Hapi Hst Hser Hv).
    rewrite (inflation_rate_cpi _ _ _ y Hy), Hfind. unfold float_. rewrite Hd.
    cbn [bind]. unfold Py.truediv. now rewrite Hzero.
  - intros w' sid Hne Hapi'.
    apply (fetch_bls_data_parsed w' sid name unit data latest rest others v v
             Hapi' Hst Hser Hv).
    now apply inflation_rate_other.
Qed.

(** *** The date of the first adapter *)

Lemma replace_M_free (a : string) : free_of_M a = true -> Py.replace_M a = a.
Proof.
  unfold free_of_M. induction a as [|c a IH]; [reflexivity |].
  cbn [list_ascii_of_string forallb Py.replace_M]. intros Hfree.
  apply andb_true_iff in Hfree as [Hc Hs]. apply negb_true_iff in Hc.
  rewrite Hc. now rewrite IH.
Qed.

Lemma replace_M_leading (a : string) : Py.replace_M (String "M" a) = Py.replace_M a.
Proof. reflexivity. Qed.

Lemma append_cons (c : ascii) (a b : string) :
  (String c a ++ b)%string = String c (a ++ b)%string.
Proof. reflexivity. Qed.

Lemma take_app_len (a b : string) :
  Py.take (Py.len a) (a ++ String "-" b)%string = a.
Proof.
  induction a as [|c a IH]; [reflexivity |].
  rewrite append_cons. cbn [Py.len Py.take].
  destruct (Py.continuation c); cbn [Py.take]; now rewrite IH.
Qed.

Lemma len_app (a b : string) :
  Py.len (a ++ b)%string = (Py.len a + Py.len b)%nat.
Proof.
  induction a as [|c a IH]; [reflexivity |].
  rewrite append_cons. cbn [Py.len]. rewrite IH.
  now destruct (Py.continuation c).
Qed.

Lemma string_app_assoc (a b c : string) :
  ((a ++ b) ++ c)%string = (a ++ b ++ c)%string.
Proof.
  induction a as [|x a IH]; [reflexivity |].
  rewrite !append_cons. now rewrite IH.
Qed.

Lemma fetch_bls_data_date w sid name unit nd data latest rest others :
  bls_api w (bls_payload w sid) = HttpJson data ->
  Results_series data = (latest :: rest) :: others ->
  fst (fetch_bls_data w sid name unit) = Some nd ->
  nd_date nd = (bls_year latest ++ "-"
                ++ Py.zfill2 (Py.replace_M (bls_period latest)) ++ "-01")%string.
Proof.
  intros Hapi Hser. unfold fetch_bls_data, bls_parse. rewrite Hapi.
  destruct (String.eqb (status data) _); [| discriminate].
  rewrite Hser. cbn [first bind].
  destruct (float_ (bls_value latest)) as [v|e]; [| discriminate]. cbn [bind].
  destruct (inflation_rate sid (latest :: rest) latest v) as [v'|e]; [| discriminate].
  cbn. now intros [= <-].
Qed.

(** X10: an observation of the first adapter is dated on the first day
    of the reported month.  Lengths count code points, as [zfill] and
    the slice [[:7]] do.  For a year of four characters and a period
    ['M'] followed by two characters the date is [year-mm-01] and its
    first seven characters, which the merge stores as the month, are
    [year-mm]; a period ['M'] followed by one character that is no sign
    is padded to two with a zero. *)
Theorem bls_date_is_first_of_month w sid name unit nd data latest rest others :
  bls_api w (bls_payload w sid) = HttpJson data ->
  Results_series data = (latest :: rest) :: others ->
  fst (fetch_bls_data w sid name unit) = Some nd ->
  Py.len (bls_year latest) = 4%nat ->
  (forall mm,
      bls_period latest = String "M" mm -> free_of_M mm = true ->
      Py.len mm = 2%nat ->
      nd_date nd = (bls_year latest ++ "-" ++ mm ++ "-01")%string
      /\ Py.take 7 (nd_date nd) = (bls_year latest ++ "-" ++ mm)%string)
  /\
  (forall mm,
      bls_period latest = String "M" mm -> free_of_M mm = true ->
      Py.len mm = 1%nat -> unsigned mm = true ->
      nd_date nd = (bls_year latest ++ "-0" ++ mm ++ "-01")%string
      /\ Py.take 7 (nd_date nd) = (bls_year latest ++ "-0" ++ mm)%string).
Proof.
  intros Hapi Hser Hf Hyear.
  pose proof (fetch_bls_data_date w sid name unit nd data latest rest others
                Hapi Hser Hf) as Hdate.
  assert (Htake : forall mm, Py.len mm = 2%nat ->
            Py.take 7 (bls_year latest ++ "-" ++ mm ++ "-01")%string
            = (bls_year latest ++ "-" ++ mm)%string).
  { intros mm Hmm.
    replace (bls_year latest ++ "-" ++ mm ++ "-01")%string
      with ((bls_year latest ++ "-" ++ mm) ++ "-01")%string
      by now rewrite !string_app_assoc.
    replace 7%nat with (Py.len (bls_year latest ++ "-" ++ mm)%string)
      by (rewrite !len_app, Hyear, Hmm; reflexivity).
    apply take_app_len. }
  split.
  - intros mm Hperiod Hfree Hlen. rewrite Hdate, Hperiod.
    rewrite replace_M_leading, (replace_M_free mm Hfree).
    assert (Hz : Py.zfill2 mm = mm) by (unfold Py.zfill2; now rewrite Hlen).
    rewrite Hz. split; [reflexivity | now apply Htake].
  - intros mm Hperiod Hfree Hlen Hsign. rewrite Hdate, Hperiod.
    rewrite replace_M_leading, (replace_M_free mm Hfree).
    assert (Hz : Py.zfill2 mm = String "0" mm).
    { unfold Py.zfill2. rewrite Hlen. destruct mm as [|c mm]; [reflexivity |].
      cbn [unsigned] in Hsign. apply negb_true_iff in Hsign. now rewrite Hsign. }
    rewrite Hz.
    change (bls_year latest ++ "-0" ++ mm ++ "-01")%string
      with (bls_year latest ++ "-" ++ String "0" mm ++ "-01")%string.
    change (bls_year latest ++ "-0" ++ mm)%string
      with (bls_year latest ++ "-" ++ String "0" mm)%string.
    split; [reflexivity |]. apply Htake.
    cbn [Py.len Py.continuation]. now rewrite Hlen.
Qed.

(** *** The read endpoints *)

(** X11: the three read endpoints agree with each other on a readable
    file.  The status endpoint counts as many keys as it lists; the
    single-indicator endpoint answers 200 with the stored series for
    exactly the listed names and 404 for every other name; the full
    listing returns the store these series come from.  With no file the
    store is empty, and on a file cut short every endpoint raises
    instead of answering. *)
Theorem read_endpoints_agree :
  (forall f store,
      load_data f = Ok store ->
      (forall now, get_all_indicators f now = Ok (ReplyAll true store now))
      /\ exists keys : gset string,
           get_status f = Ok (ReplyStatus true "running" (size keys) keys)
           /\ forall name now,
                (name ∈ keys ->
                 exists s, store !! name = Some s
                           /\ get_indicator f name now = Ok (ReplyOne true s now))
                /\ (name ∉ keys ->
                    store !! name = None
                    /\ get_indicator f name now
                       = Ok (Reply404 false ("指标 " ++ name ++ " 不存在")%string)))
  /\
  (get_status NoFile = Ok (ReplyStatus true "running" 0 ∅)
   /\ forall name now,
        get_indicator NoFile name now
        = Ok (Reply404 false ("指标 " ++ name ++ " 不存在")%string))
  /\
  (get_status Truncated = Raise JSONDecodeError
   /\ (forall now, get_all_indicators Truncated now = Raise JSONDecodeError)
   /\ (forall name now, get_indicator Truncated name now = Raise JSONDecodeError)).
Proof.
  split; [| split].
  - intros f store Hload. split.
    + intros now. unfold get_all_indicators. now rewrite Hload.
    + exists (dom store). split.
      * unfold get_status. rewrite Hload. cbn [bind ret].
        now rewrite size_dom.
      * intros name now. unfold get_indicator. rewrite Hload. cbn [bind].
        rewrite elem_of_dom. split.
        -- intros [s Hs]. exists s. now rewrite Hs.
        -- intros Hnot. destruct (store !! name) as [s|] eqn:Hs; [| now split].
           exfalso. apply Hnot. now exists s.
  - split.
    + unfold get_status. cbn [load_data bind ret].
      now rewrite map_size_empty, dom_empty_L.
    + intros name now. unfold get_indicator. cbn [load_data bind].
      now rewrite lookup_empty.
  - repeat split.
Qed.

(** X12: reading after a run.  For a name the run returned, the
    single-indicator endpoint now answers 200 with a series whose last
    observation is the one just fetched and whose [lastUpdate] is the
    time of the append; for every other name it answers what it answered
    before the run. *)
Theorem read_after_run w f store changed :
  load_data f = Ok store ->
  returned (update_all_indicators w f) = Ok changed ->
  forall name now,
    (In name changed ->
     exists s' fetcher nd,
       In (name, fetcher) indicators_config /\ fst (fetcher w) = Some nd
       /\ get_indicator (file_after f (update_all_indicators w f)) name now
          = Ok (ReplyOne true s' now)
       /\ last (s_data s') = Some {| o_month := Py.take 7 (nd_date nd);
                                     o_value := nd_value nd;
                                     o_date := nd_date nd |}
       /\ s_lastUpdate s' = Some (iso_now w name))
    /\ (~ In name changed ->
        get_indicator (file_after f (update_all_indicators w f)) name now
        = get_indicator f name now).
Proof.
  intros Hload Hret name now.
  destruct (run_effect_store w f store changed Hload Hret) as [Hafter _].
  rewrite (returned_changed w f store changed Hload Hret).
  unfold get_indicator. rewrite Hafter, Hload. cbn [load_data bind]. split.
  - intros Hin.
    destruct (final_store_changed w store name Hin) as (fetcher & nd & Hcfg & Hf & _ & Hlook).
    eexists. exists fetcher, nd. rewrite Hlook.
    split; [assumption |]. split; [assumption |]. split; [reflexivity |].
    split; [apply last_snoc | reflexivity].
  - intros Hnot. now rewrite (final_store_unchanged w store name Hnot).
Qed.

(** X13: the first run, with no file yet.  The file it writes holds a
    series for exactly the keys whose adapter came back with an
    observation, these are the keys it returns, and each such series
    consists of that one observation, under the name, unit and source
    the adapter gave, with [lastUpdate] set. *)
Theorem first_run_creates_store w changed :
  returned (update_all_indicators w NoFile) = Ok changed ->
  exists store',
    file_after NoFile (update_all_indicators w NoFile) = Document store'
    /\ forall key,
         (In key changed <->
          exists fetcher nd, In (key, fetcher) indicators_config /\ fst (fetcher w) = Some nd)
         /\ (In key changed <-> is_Some (store' !! key))
         /\ (forall s, store' !! key = Some s ->
              exists fetcher nd,
                In (key, fetcher) indicators_config /\ fst (fetcher w) = Some nd
                /\ s = {| s_name := nd_name nd;
                          s_unit := nd_unit nd;
                          s_source := nd_source nd;
                          s_data := [ {| o_month := Py.take 7 (nd_date nd);
                                         o_value := nd_value nd;
                                         o_date := nd_date nd |} ];
                          s_lastUpdate := Some (iso_now w key) |}).
Proof.
  intros Hret.
  destruct (run_effect_store w NoFile ∅ changed eq_refl Hret) as [Hafter _].
  rewrite (returned_changed w NoFile ∅ changed eq_refl Hret).
  exists (final_store w ∅). split; [assumption |]. intros key.
  assert (Hlook : In key (changed_keys w ∅) ->
            exists fetcher nd,
              In (key, fetcher) indicators_config /\ fst (fetcher w) = Some nd
              /\ final_store w ∅ !! key
                 = Some (append_observation (iso_now w key) nd (new_series nd))).
  { intros Hin.
    destruct (final_store_changed w ∅ key Hin) as (fetcher & nd & Hcfg & Hf & _ & Hl).
    exists fetcher, nd. rewrite lookup_empty in Hl. now repeat split. }
  split; [| split].
  - rewrite changed_keys_spec. split.
    + intros (fetcher & nd & Hcfg & Hf & _). now exists fetcher, nd.
    + intros (fetcher & nd & Hcfg & Hf). exists fetcher, nd.
      repeat split; try assumption. unfold dates_of. rewrite lookup_empty. intros [].
  - split.
    + intros Hin. destruct (Hlook Hin) as (fetcher & nd & _ & _ & ->). now eexists.
    + intros [s Hs].
      destruct (in_dec string_dec key (changed_keys w ∅)) as [Hin | Hnot]; [assumption |].
      rewrite (final_store_unchanged w ∅ key Hnot), lookup_empty in Hs. discriminate.
  - intros s Hs.
    destruct (in_dec string_dec key (changed_keys w ∅)) as [Hin | Hnot].
    + destruct (Hlook Hin) as (fetcher & nd & Hcfg & Hf & Hl).
      rewrite Hl in Hs. injection Hs as <-. now exists fetcher, nd.
    + rewrite (final_store_unchanged w ∅ key Hnot), lookup_empty in Hs. discriminate.
Qed.

(** *** The log of a run *)

Lemma fetch_fred_data_events w sid name unit :
  snd (fetch_fred_data w sid name unit) = [Log WARNING (MsgNoKey name)]
  \/ snd (fetch_fred_data w sid name unit)
     = [Get FRED_URL (fred_params (default "" (FRED_API_KEY w)) sid)]
  \/ exists e, snd (fetch_fred_data w sid name unit)
               = [Get FRED_URL (fred_params (default "" (FRED_API_KEY w)) sid);
                  Log ERROR (MsgFredFailed name e)].
Proof.
  unfold fetch_fred_data. destruct (String.eqb _ _); [now left | right].
  destruct (fred_api w _) as [e|data]; [right; now exists e |].
  destruct (fred_parse name unit data) as [r|e]; [now left | right; now exists e].
Qed.

(** The events of an adapter of the registry hold no update line. *)
Lemma config_events w entry :
  In entry indicators_config ->
  omap updated_key (snd (snd entry w)) = [].
Proof.
  intros Hin. unfold indicators_config in Hin.
  repeat (destruct Hin as [<- | Hin];
          [cbn [fst snd];
           first [ destruct (fetch_bls_data_events w "CUUR0000SA0" "CPI通胀率" "%")
                     as [-> | [e ->]]
                 | destruct (fetch_bls_data_events w "LNS14000000" "失业率" "%")
                     as [-> | [e ->]]
                 | destruct (fetch_fred_data_events w "DFEDTARU" "联邦基金利率" "%")
                     as [-> | [-> | [e ->]]]
                 | destruct (fetch_fred_data_events w "NAPM" "ISM制造业指数" "点")
                     as [-> | [-> | [e ->]]]
                 | destruct (fetch_fred_data_events w "UMCSENT" "消费者信心指数" "点")
                     as [-> | [-> | [e ->]]] ];
           reflexivity |]).
  destruct Hin.
Qed.

Lemma entry_events_log w store entry :
  In entry indicators_config ->
  omap updated_key (entry_events w store entry)
  = (if contributes w store entry then [fst entry] else []).
Proof.
  intros Hin. pose proof (config_events w entry Hin) as Hup.
  unfold entry_events. rewrite omap_app, Hup. cbn [app].
  unfold contributes.
  destruct (fst (snd entry w)) as [nd|]; [| reflexivity].
  now destruct (negb _).
Qed.

Lemma loop_log w store cfg :
  (forall entry, In entry cfg -> In entry indicators_config) ->
  omap updated_key (flat_map (entry_events w store) cfg)
  = map fst (List.filter (contributes w store) cfg).
Proof.
  induction cfg as [|entry cfg IH]; intros Hsub; [reflexivity |].
  cbn [flat_map List.filter].
  rewrite omap_app, (entry_events_log w store entry (Hsub entry (or_introl eq_refl))).
  rewrite IH by (intros e He; apply Hsub; now right).
  now destruct (contributes w store entry).
Qed.

(** An update line among the events of an iteration is the line of
    that iteration's own append. *)
Lemma entry_events_updated w store entry key v :
  In entry indicators_config ->
  In (Log INFO (MsgUpdated key v)) (entry_events w store entry) ->
  key = fst entry /\ contributes w store entry = true
  /\ exists nd, fst (snd entry w) = Some nd /\ nd_value nd = v.
Proof.
  intros Hcfg Hin. unfold entry_events in Hin. apply in_app_or in Hin as [Hin | Hin].
  - exfalso. pose proof (config_events w entry Hcfg) as Hup.
    assert (Hkey : key ∈ omap updated_key (snd (snd entry w))).
    { apply list_elem_of_omap. exists (Log INFO (MsgUpdated key v)).
      split; [now apply list_elem_of_In | reflexivity]. }
    rewrite Hup in Hkey. now apply elem_of_nil in Hkey.
  - destruct (fst (snd entry w)) as [nd|] eqn:Hf; [| destruct Hin].
    destruct (contributes w store entry) eqn:Hc; [| destruct Hin].
    destruct Hin as [Heq | []]. injection Heq as <- <-.
    split; [reflexivity |]. split; [reflexivity |]. now exists nd.
Qed.

(** X14: the log of a run that returns tells what the run did.  Its
    update lines name exactly the returned keys, in order; its last line
    is the closing line with the number of returned keys; and every
    update line reports the value of the observation that now ends the
    series of its key in the file. *)
Theorem log_agrees_with_result w f changed :
  returned (update_all_indicators w f) = Ok changed ->
  omap updated_key (events (update_all_indicators w f)) = changed
  /\ last (events (update_all_indicators w f)) = Some (Log INFO (MsgDone (length changed)))
  /\ (forall key v,
        In (Log INFO (MsgUpdated key v)) (events (update_all_indicators w f)) ->
        exists store' s' o,
          file_after f (update_all_indicators w f) = Document store'
          /\ store' !! key = Some s'
          /\ last (s_data s') = Some o
          /\ o_value o = v).
Proof.
  intros Hret.
  destruct (returned_ok w f changed Hret) as (store & Hload & Hfault).
  rewrite (returned_changed w f store changed Hload Hret).
  rewrite (run_no_fault w f store Hload Hfault). cbn [events].
  pose proof (loop_log w store indicators_config (fun _ Hin => Hin)) as Hup.
  split; [| split].
  - unfold loop_events_of.
    change (Log INFO MsgStart :: flat_map (entry_events w store) indicators_config)
      with ([Log INFO MsgStart] ++ flat_map (entry_events w store) indicators_config).
    rewrite !omap_app, Hup.
    change (omap updated_key [Log INFO MsgStart]) with (@nil string).
    change (omap updated_key [Log INFO (MsgDone (length (changed_keys w store)))])
      with (@nil string).
    apply app_nil_r.
  - apply last_snoc.
  - intros key v Hin. unfold file_after. cbn [written List.last].
    apply in_app_or in Hin as [Hin | [Heq | []]]; [| discriminate Heq].
    unfold loop_events_of in Hin. destruct Hin as [Heq | Hin]; [discriminate Heq |].
    apply in_flat_map in Hin as (entry & Hcfg & Hin).
    destruct (entry_events_updated w store entry key v Hcfg Hin)
      as (-> & Hc & nd & Hf & <-).
    exists (final_store w store). unfold final_store.
    rewrite (loop_lookup_entry w indicators_config store entry config_NoDup Hcfg).
    unfold step_store. rewrite Hf, Hc, lookup_insert_eq.
    eexists. eexists. split; [reflexivity |]. split; [reflexivity |].
    split; [apply last_snoc | reflexivity].
Qed.

(** *** Many runs *)

(** X15: history is kept across any number of scheduled runs.  Whenever
    the file is a document again after the runs, every series of the
    store the first of them loaded is still in it, with the same name,
    unit and source and with its old observations at the front. *)
Theorem history_kept_across_runs ws f store store' :
  load_data f = Ok store ->
  runs ws f = Document store' ->
  forall key s, store !! key = Some s ->
    exists s', store' !! key = Some s'
      /\ s_name s' = s_name s /\ s_unit s' = s_unit s /\ s_source s' = s_source s
      /\ s_data s `prefix_of` s_data s'.
Proof.
  intros Hload Hruns. change (append_only store store').
  revert f store Hload Hruns. induction ws as [|w ws IH]; intros f store Hload Hruns.
  - cbn [runs] in Hruns. subst f. cbn in Hload. injection Hload as <-.
    apply append_only_refl.
  - cbn [runs] in Hruns. rewrite file_after_cases, Hload in Hruns.
    destruct (fault w).
    + eapply append_only_trans; [apply loop_append_only |].
      apply (IH (Document (final_store w store)) (final_store w store) eq_refl Hruns).
    + apply (IH f store Hload Hruns).
    + rewrite runs_truncated in Hruns. discriminate.
Qed.

End Extras.

(** ** The theorems on the sample inputs *)

Import Sample.

Local Open Scope list_scope.

Lemma merge_idempotent_on_dates_witness :
  merge "2024-06-01T00:00:00" "fed_rate" (fed_observation "2024-05-01") store1
  = Ok (store1, false)
  /\ (let f1 := file_after NoFile (update_all_indicators world_ok NoFile) in
      returned (update_all_indicators world_next_day f1) = Ok []
      /\ file_after f1 (update_all_indicators world_next_day f1) = f1).
Proof.
  split.
  - apply (proj1 merge_idempotent_on_dates _ _ _ _ fed_series).
    + reflexivity.
    + simpl. left. reflexivity.
  - apply (proj2 merge_idempotent_on_dates world_ok world_next_day NoFile
             ["cpi"; "unemployment"; "fed_rate"; "ism"; "consumer_confidence"]%string).
    + repeat split.
    + reflexivity.
    + vm_compute. reflexivity.
Defined.

Lemma merging_is_append_only_witness :
  (exists s', ensure_series "fed_rate" (fed_observation "2024-05-01") store1 !! "fed_rate"%string
              = Some s'
      /\ s_name s' = s_name fed_series /\ s_unit s' = s_unit fed_series
      /\ s_source s' = s_source fed_series
      /\ s_data fed_series `prefix_of` s_data s'
      /\ s_data fed_series `sublist_of` s_data s')
  /\ (exists store',
        file_after (Document store1) (update_all_indicators world_ok (Document store1))
        = Document store'
        /\ forall k s, store1 !! k = Some s ->
             exists s', store' !! k = Some s'
               /\ s_name s' = s_name s /\ s_unit s' = s_unit s /\ s_source s' = s_source s
               /\ s_data s `prefix_of` s_data s' /\ s_data s `sublist_of` s_data s').
Proof.
  split.
  - apply (proj1 merging_is_append_only "2024-06-01T00:00:00"%string "fed_rate"%string
             (fed_observation "2024-05-01") store1 _ false).
    + vm_compute. reflexivity.
    + reflexivity.
  - apply (proj2 merging_is_append_only world_ok (Document store1) store1
             ["cpi"; "unemployment"; "fed_rate"; "ism"; "consumer_confidence"]%string).
    + reflexivity.
    + vm_compute. reflexivity.
Defined.

(** A reader that comes between the open and the end of the dump finds
    neither the store of before the run nor the store of after it. *)
Lemma save_data_not_atomic :
  ~ (forall (w : World) (f st : file),
        In st (written (update_all_indicators w f)) ->
        st = f \/ st = file_after f (update_all_indicators w f)).
Proof.
  intros Hatomic.
  destruct (Hatomic world_ok (Document store1) Truncated) as [Hpre | Hpost].
  - rewrite (run_no_fault world_ok (Document store1) store1 eq_refl eq_refl).
    left. reflexivity.
  - discriminate Hpre.
  - rewrite (run_no_fault world_ok (Document store1) store1 eq_refl eq_refl) in Hpost.
    discriminate Hpost.
Qed.

Lemma save_data_replaces_in_place_witness :
  written (update_all_indicators world_ok (Document store1))
  = [Truncated; Document (final_store world_ok store1)]
  /\ load_data (file_after (Document store1)
                  (update_all_indicators world_ok (Document store1)))
     = Ok (final_store world_ok store1).
Proof.
  apply (proj2 (proj2 save_data_replaces_in_place) world_ok (Document store1) store1).
  - reflexivity.
  - reflexivity.
Defined.

Set Warnings "-inexact-float".

Lemma index_adapter_derived_value_witness :
  option_map nd_value (fst (fetch_bls_data world_ok CPI_SERIES "CPI" "%"))
  = Some 7.3%float
  /\ option_map nd_value
       (fst (fetch_bls_data world_short CPI_SERIES "CPI" "%"))
     = Some 118.0%float.
Proof.
  pose proof (index_adapter_derived_value world_ok "CPI" "%" cpi_body
                (entry "2024" "M05" "118.0")
                [entry "2024" "M04" "117.2"; entry "2023" "M05" "110.0";
                 entry "2023" "M04" "109.5"] [] 2024 118.0%float
                eq_refl eq_refl eq_refl
                (eq_refl : py_int "2024" = Some 2024)
                (eq_refl : py_float "118.0" = Some 118.0%float)) as (Hyoy & _ & _).
  pose proof (index_adapter_derived_value world_short "CPI" "%" cpi_body_short
                (entry "2024" "M05" "118.0") [entry "2024" "M04" "117.2"] [] 2024
                118.0%float
                eq_refl eq_refl eq_refl
                (eq_refl : py_int "2024" = Some 2024)
                (eq_refl : py_float "118.0" = Some 118.0%float)) as (_ & Hraw & _).
  split.
  - rewrite (Hyoy (entry "2023" "M05" "110.0") 110.0%float eq_refl eq_refl eq_refl).
    vm_compute. reflexivity.
  - rewrite (Hraw eq_refl). vm_compute. reflexivity.
Defined.

Set Warnings "inexact-float".

Lemma credential_gating_witness :
  fetch_fred_data world_no_key "DFEDTARU" "rate" "%"
  = (None, [Log WARNING (MsgNoKey "rate")])
  /\ final_store world_no_key store1 !! "fed_rate"%string = store1 !! "fed_rate"%string
  /\ forallb (fun ev => negb (is_get ev))
       (events (update_all_indicators world_no_key (Document store1))) = true.
Proof.
  destruct (credential_gating world_no_key eq_refl) as [Hfetch [_ Hrun]].
  destruct (Hrun (Document store1) store1 eq_refl) as (Hfinal & _ & Hget).
  split; [apply Hfetch |]. split; [| exact Hget].
  apply Hfinal. simpl. left. reflexivity.
Defined.

Lemma partial_failure_isolation_witness :
  returned (update_all_indicators world_bls_down NoFile)
  = Ok (changed_keys world_bls_down ∅)
  /\ changed_keys world_bls_down ∅ = ["fed_rate"; "ism"; "consumer_confidence"]%string.
Proof.
  split.
  - apply (proj1 (proj2 (partial_failure_isolation world_bls_down NoFile ∅ eq_refl))).
    reflexivity.
  - vm_compute. reflexivity.
Defined.

Lemma persistence_failure_surfaces_witness :
  (returned (update_all_indicators world_disk_full NoFile) = Raise OSError
   /\ fst (manual_update world_disk_full NoFile) = Reply500 false OSError)
  /\ fst (manual_update world_bls_down NoFile)
     = Reply200 true (length (changed_keys world_bls_down ∅)) (changed_keys world_bls_down ∅)
  /\ is_failure (fst (manual_update world_ok Truncated))
     = is_failure (fst (manual_update world_bls_down Truncated))
  /\ is_failure (fst (manual_update world_ok Truncated)) = true.
Proof.
  destruct persistence_failure_surfaces as (Hfail & Hok & Hsame & Hiff).
  split; [| split; [| split]].
  - apply (Hfail world_disk_full NoFile ∅); [reflexivity | discriminate].
  - apply (Hok world_bls_down NoFile ∅); reflexivity.
  - apply Hsame. reflexivity.
  - apply Hiff. left. exists JSONDecodeError. reflexivity.
Defined.


Lemma fred_outcomes_indistinguishable_witness :
  fst (fetch_fred_data world_no_key "DFEDTARU" "rate" "%") = None
  /\ fst (fetch_fred_data world_fred_down "DFEDTARU" "rate" "%") = None
  /\ fst (fetch_fred_data world_fred_dot "DFEDTARU" "rate" "%") = None
  /\ fst (fetch_fred_data world_fred_empty "DFEDTARU" "rate" "%") = None.
Proof.
  split; [| split; [| split]].
  - apply (proj1 (fred_outcomes_indistinguishable world_no_key _ _ _)). reflexivity.
  - apply (proj1 (proj2 (fred_outcomes_indistinguishable world_fred_down _ _ _))
             ConnectionError).
    + discriminate.
    + reflexivity.
  - apply (proj1 (proj2 (proj2 (fred_outcomes_indistinguishable world_fred_dot _ _ _)))
             {| fred_date := "2024-05-15"; fred_value := "." |} []).
    + discriminate.
    + reflexivity.
    + reflexivity.
  - apply (proj2 (proj2 (proj2 (fred_outcomes_indistinguishable world_fred_empty _ _ _)))
             {| observations := Some [] |}).
    + discriminate.
    + reflexivity.
    + right. reflexivity.
Defined.

Lemma transform_selected_by_series_id_witness :
  inflation_rate "LNS14000000"
    [entry "2024" "M05" "4.0"; entry "2023" "M05" "3.7"] (entry "2024" "M05" "4.0") 4.0%float
  = Ok 4.0%float
  /\ inflation_rate CPI_SERIES
       [entry "2024" "M05" "118.0"; entry "2023" "M05" "110.0"]
       (entry "2024" "M05" "118.0") 118.0%float
     = Ok ((118.0 - 110.0) / 110.0 * 100)%float
  /\ option_map nd_value (fst (fetch_bls_data world_ok "LNS14000000" "u" "%"))
     = Some 118.0%float.
Proof.
  destruct transform_selected_by_series_id as (_ & Hother & Hcpi & Hraw & _).
  split; [| split].
  - apply Hother. discriminate.
  - apply (Hcpi _ _ _ 2024 (entry "2023" "M05" "110.0") 110.0%float); reflexivity.
  - rewrite Hraw by discriminate. vm_compute. reflexivity.
Defined.

(** ** The further properties on the sample inputs *)

Lemma run_effect_per_key_witness :
  exists store',
    file_after (Document store1) (update_all_indicators world_ok (Document store1))
    = Document store'
    /\ (forall key, In key all_keys ->
          exists fetcher nd,
            In (key, fetcher) indicators_config /\ fst (fetcher world_ok) = Some nd
            /\ ~ In (nd_date nd) (dates_of store1 key)
            /\ store' !! key
               = Some {| s_name := s_name (default (new_series nd) (store1 !! key));
                         s_unit := s_unit (default (new_series nd) (store1 !! key));
                         s_source := s_source (default (new_series nd) (store1 !! key));
                         s_data := s_data (default (new_series nd) (store1 !! key))
                                   ++ [ {| o_month := Py.take 7 (nd_date nd);
                                           o_value := nd_value nd;
                                           o_date := nd_date nd |} ];
                         s_lastUpdate := Some (iso_now world_ok key) |})
    /\ (forall key, ~ In key all_keys -> store' !! key = store1 !! key).
Proof.
  apply (run_effect_per_key world_ok (Document store1) store1 all_keys).
  - reflexivity.
  - vm_compute. reflexivity.
Defined.

Lemma returned_keys_ordered_witness :
  ["fed_rate"; "ism"; "consumer_confidence"]%string `sublist_of` all_keys
  /\ NoDup ["fed_rate"; "ism"; "consumer_confidence"]%string.
Proof.
  apply (returned_keys_ordered world_bls_down NoFile).
  vm_compute. reflexivity.
Defined.

Lemma nothing_changed_iff_same_store_witness :
  written (update_all_indicators world_all_down (Document store1)) <> []
  /\ (@nil string = [] <->
      file_after (Document store1) (update_all_indicators world_all_down (Document store1))
      = Document store1).
Proof.
  apply (nothing_changed_iff_same_store world_all_down (Document store1) store1 []).
  - reflexivity.
  - vm_compute. reflexivity.
Defined.

Lemma store1_ok : store_ok store1.
Proof.
  intros key s. unfold store1.
  destruct (decide (key = "fed_rate"%string)) as [-> | Hne].
  - rewrite lookup_singleton_eq. intros [= <-]. unfold series_ok.
    split; [cbn; tauto |]. split; [discriminate |]. split; [discriminate |].
    split; [apply NoDup_singleton |]. split; [| now right].
    repeat constructor.
  - rewrite lookup_singleton_ne by congruence. discriminate.
Qed.

Lemma written_stores_well_formed_witness :
  file_ok (runs [world_ok; world_disk_full; world_next_day] (Document store1))
  /\ file_ok (runs [world_bls_down; world_ok] NoFile).
Proof.
  split.
  - apply (proj1 written_stores_well_formed). exact store1_ok.
  - apply (proj2 written_stores_well_formed).
Defined.

Lemma failed_write_loses_the_store_witness :
  file_after (Document store1) (update_all_indicators world_disk_full (Document store1))
  = Truncated
  /\ runs [world_ok; world_next_day] Truncated = Truncated.
Proof.
  split.
  - apply (proj1 failed_write_loses_the_store world_disk_full (Document store1) store1).
    + reflexivity.
    + reflexivity.
  - apply (proj2 (proj2 (proj2 failed_write_loses_the_store))).
Defined.

Lemma one_request_per_indicator_witness :
  List.filter is_request (events (update_all_indicators world_bls_down NoFile))
  = [Post BLS_URL (bls_payload world_bls_down "CUUR0000SA0");
     Post BLS_URL (bls_payload world_bls_down "LNS14000000");
     Get FRED_URL (fred_params "secret" "DFEDTARU");
     Get FRED_URL (fred_params "secret" "NAPM");
     Get FRED_URL (fred_params "secret" "UMCSENT")].
Proof.
  apply (one_request_per_indicator world_bls_down NoFile ∅). reflexivity.
Defined.

Lemma bls_failure_modes_witness :
  fetch_bls_data (world_bls rejected_body) "LNS14000000" "u" "%"
  = (None, [Post BLS_URL (bls_payload (world_bls rejected_body) "LNS14000000")])
  /\ fetch_bls_data world_bls_down "LNS14000000" "u" "%"
     = (None, [Post BLS_URL (bls_payload world_bls_down "LNS14000000");
               Log ERROR (MsgBlsFailed "u" Timeout)])
  /\ fetch_bls_data (world_bls empty_body) "LNS14000000" "u" "%"
     = (None, [Post BLS_URL (bls_payload (world_bls empty_body) "LNS14000000");
               Log ERROR (MsgBlsFailed "u" IndexError)])
  /\ fetch_bls_data (world_bls dash_body) "LNS14000000" "u" "%"
     = (None, [Post BLS_URL (bls_payload (world_bls dash_body) "LNS14000000");
               Log ERROR (MsgBlsFailed "u" ValueError)]).
Proof.
  split; [| split; [| split]].
  - apply (proj1 (bls_failure_modes (world_bls rejected_body) _ _ _) rejected_body).
    + reflexivity.
    + discriminate.
  - apply (proj1 (proj2 (bls_failure_modes world_bls_down _ _ _)) Timeout).
    reflexivity.
  - apply (proj1 (proj2 (proj2 (bls_failure_modes (world_bls empty_body) _ _ _)))
             empty_body).
    + reflexivity.
    + reflexivity.
    + left. reflexivity.
  - apply (proj2 (proj2 (proj2 (bls_failure_modes (world_bls dash_body) _ _ _)))
             dash_body (entry "2024" "M05" "-") [entry "2023" "M05" "110.0"] []).
    + reflexivity.
    + reflexivity.
    + reflexivity.
    + reflexivity.
Defined.

Set Warnings "-inexact-float".

Lemma cpi_only_failure_modes_witness :
  fetch_bls_data (world_bls bad_year_body) CPI_SERIES "CPI" "%"
  = (None, [Post BLS_URL (bls_payload (world_bls bad_year_body) CPI_SERIES);
            Log ERROR (MsgBlsFailed "CPI" ValueError)])
  /\ fetch_bls_data (world_bls dash_year_ago_body) CPI_SERIES "CPI" "%"
     = (None, [Post BLS_URL (bls_payload (world_bls dash_year_ago_body) CPI_SERIES);
               Log ERROR (MsgBlsFailed "CPI" ValueError)])
  /\ fetch_bls_data (world_bls zero_year_ago_body) CPI_SERIES "CPI" "%"
     = (None, [Post BLS_URL (bls_payload (world_bls zero_year_ago_body) CPI_SERIES);
               Log ERROR (MsgBlsFailed "CPI" ZeroDivisionError)])
  /\ fst (fetch_bls_data (world_bls zero_year_ago_body) "LNS14000000" "CPI" "%")
     = Some (bls_observation "CPI" "%" (entry "2024" "M05" "118.0") 118.0%float).
Proof.
  pose proof (cpi_only_failure_modes (world_bls bad_year_body) "CPI" "%" bad_year_body
                (entry "20x4" "M05" "118.0") [entry "2023" "M05" "110.0"] [] 118.0%float
                eq_refl eq_refl eq_refl
                (eq_refl : py_float "118.0" = Some 118.0%float)) as (Hyear & _).
  pose proof (cpi_only_failure_modes (world_bls dash_year_ago_body) "CPI" "%"
                dash_year_ago_body
                (entry "2024" "M05" "118.0") [entry "2023" "M05" "-"] [] 118.0%float
                eq_refl eq_refl eq_refl
                (eq_refl : py_float "118.0" = Some 118.0%float)) as (_ & Hdash & _).
  pose proof (cpi_only_failure_modes (world_bls zero_year_ago_body) "CPI" "%"
                zero_year_ago_body
                (entry "2024" "M05" "118.0") [entry "2023" "M05" "0.0"] [] 118.0%float
                eq_refl eq_refl eq_refl
                (eq_refl : py_float "118.0" = Some 118.0%float))
    as (_ & _ & Hzero & Hother).
  split; [| split; [| split]].
  - apply Hyear. reflexivity.
  - apply (Hdash 2024 (entry "2023" "M05" "-")); reflexivity.
  - apply (Hzero 2024 (entry "2023" "M05" "0.0") 0.0%float); reflexivity.
  - apply (Hother (world_bls zero_year_ago_body)).
    + discriminate.
    + reflexivity.
Defined.

Lemma bls_date_is_first_of_month_witness :
  (nd_date (bls_observation "u" "%" (entry "2024" "M05" "118.0") 118.0%float)
   = "2024-05-01"%string
   /\ Py.take 7 (nd_date (bls_observation "u" "%" (entry "2024" "M05" "118.0") 118.0%float))
      = "2024-05"%string)
  /\ (nd_date (bls_observation "u" "%" (entry "2024" "M5" "4.1") 4.1%float)
      = "2024-05-01"%string
      /\ Py.take 7 (nd_date (bls_observation "u" "%" (entry "2024" "M5" "4.1") 4.1%float))
         = "2024-05"%string).
Proof.
  assert (Hf : fst (fetch_bls_data world_ok "LNS14000000" "u" "%")
               = Some (bls_observation "u" "%" (entry "2024" "M05" "118.0") 118.0%float))
    by (vm_compute; reflexivity).
  assert (Hf1 : fst (fetch_bls_data (world_bls one_digit_body) "LNS14000000" "u" "%")
                = Some (bls_observation "u" "%" (entry "2024" "M5" "4.1") 4.1%float))
    by (vm_compute; reflexivity).
  split.
  - apply (proj1 (bls_date_is_first_of_month world_ok "LNS14000000" "u" "%"
                    (bls_observation "u" "%" (entry "2024" "M05" "118.0") 118.0%float)
                    cpi_body (entry "2024" "M05" "118.0")
                    [entry "2024" "M04" "117.2"; entry "2023" "M05" "110.0";
                     entry "2023" "M04" "109.5"] []
                    eq_refl eq_refl Hf eq_refl) "05"%string).
    + reflexivity.
    + reflexivity.
    + reflexivity.
  - apply (proj2 (bls_date_is_first_of_month (world_bls one_digit_body)
                    "LNS14000000" "u" "%"
                    (bls_observation "u" "%" (entry "2024" "M5" "4.1") 4.1%float)
                    one_digit_body (entry "2024" "M5" "4.1") [] []
                    eq_refl eq_refl Hf1 eq_refl) "5"%string).
    + reflexivity.
    + reflexivity.
    + reflexivity.
    + reflexivity.
Defined.

Set Warnings "inexact-float".

Lemma read_endpoints_agree_witness :
  (forall now, get_all_indicators (Document store1) now = Ok (ReplyAll true store1 now))
  /\ exists keys : gset string,
       get_status (Document store1) = Ok (ReplyStatus true "running" (size keys) keys)
       /\ forall name now,
            (name ∈ keys ->
             exists s, store1 !! name = Some s
                       /\ get_indicator (Document store1) name now
                          = Ok (ReplyOne true s now))
            /\ (name ∉ keys ->
                store1 !! name = None
                /\ get_indicator (Document store1) name now
                   = Ok (Reply404 false ("指标 " ++ name ++ " 不存在")%string)).
Proof.
  apply (proj1 read_endpoints_agree (Document store1) store1). reflexivity.
Defined.

Lemma read_after_run_witness :
  (exists s' fetcher nd,
      In ("cpi"%string, fetcher) indicators_config /\ fst (fetcher world_ok) = Some nd
      /\ get_indicator
           (file_after (Document store1) (update_all_indicators world_ok (Document store1)))
           "cpi" "2024-06-01T08:00:00"
         = Ok (ReplyOne true s' "2024-06-01T08:00:00")
      /\ last (s_data s') = Some {| o_month := Py.take 7 (nd_date nd);
                                    o_value := nd_value nd;
                                    o_date := nd_date nd |}
      /\ s_lastUpdate s' = Some (iso_now world_ok "cpi"))
  /\ get_indicator
       (file_after (Document store1) (update_all_indicators world_ok (Document store1)))
       "gdp" "2024-06-01T08:00:00"
     = get_indicator (Document store1) "gdp" "2024-06-01T08:00:00".
Proof.
  assert (Hret : returned (update_all_indicators world_ok (Document store1)) = Ok all_keys)
    by (vm_compute; reflexivity).
  split.
  - apply (proj1 (read_after_run world_ok (Document store1) store1 all_keys
                    eq_refl Hret "cpi"%string "2024-06-01T08:00:00"%string)).
    left. reflexivity.
  - apply (proj2 (read_after_run world_ok (Document store1) store1 all_keys
                    eq_refl Hret "gdp"%string "2024-06-01T08:00:00"%string)).
    unfold all_keys. rewrite <- list_elem_of_In. intros Hin.
    repeat (apply elem_of_cons in Hin as [Hin | Hin]; [discriminate |]).
    now apply elem_of_nil in Hin.
Defined.

Lemma first_run_creates_store_witness :
  exists store',
    file_after NoFile (update_all_indicators world_bls_down NoFile) = Document store'
    /\ forall key,
         (In key ["fed_rate"; "ism"; "consumer_confidence"]%string <->
          exists fetcher nd,
            In (key, fetcher) indicators_config /\ fst (fetcher world_bls_down) = Some nd)
         /\ (In key ["fed_rate"; "ism"; "consumer_confidence"]%string
             <-> is_Some (store' !! key))
         /\ (forall s, store' !! key = Some s ->
              exists fetcher nd,
                In (key, fetcher) indicators_config
                /\ fst (fetcher world_bls_down) = Some nd
                /\ s = {| s_name := nd_name nd;
                          s_unit := nd_unit nd;
                          s_source := nd_source nd;
                          s_data := [ {| o_month := Py.take 7 (nd_date nd);
                                         o_value := nd_value nd;
                                         o_date := nd_date nd |} ];
                          s_lastUpdate := Some (iso_now world_bls_down key) |}).
Proof.
  apply (first_run_creates_store world_bls_down).
  vm_compute. reflexivity.
Defined.

Lemma log_agrees_with_result_witness :
  omap updated_key (events (update_all_indicators world_bls_down NoFile))
  = ["fed_rate"; "ism"; "consumer_confidence"]%string
  /\ last (events (update_all_indicators world_bls_down NoFile))
     = Some (Log INFO (MsgDone 3))
  /\ exists store' s' o,
       file_after NoFile (update_all_indicators world_bls_down NoFile) = Document store'
       /\ store' !! "ism"%string = Some s'
       /\ last (s_data s') = Some o
       /\ o_value o = 5.5%float.
Proof.
  assert (Hret : returned (update_all_indicators world_bls_down NoFile)
                 = Ok ["fed_rate"; "ism"; "consumer_confidence"]%string)
    by (vm_compute; reflexivity).
  destruct (log_agrees_with_result world_bls_down NoFile _ Hret) as (Hkeys & Hlast & Hval).
  split; [exact Hkeys |]. split; [exact Hlast |].
  apply (Hval "ism"%string 5.5%float).
  vm_compute. do 8 right. left. reflexivity.
Defined.

Lemma history_kept_across_runs_witness :
  exists s', final_store world_next_day (final_store world_ok store1) !! "fed_rate"%string
             = Some s'
    /\ s_name s' = s_name fed_series /\ s_unit s' = s_unit fed_series
    /\ s_source s' = s_source fed_series
    /\ s_data fed_series `prefix_of` s_data s'.
Proof.
  apply (history_kept_across_runs [world_ok; world_next_day] (Document store1) store1
           (final_store world_next_day (final_store world_ok store1))).
  - reflexivity.
  - cbn [runs]. rewrite !file_after_cases. reflexivity.
  - vm_compute. reflexivity.
Defined.
